(** * Book-Library-API: the inventory handlers of [main.go] over a model of the
    [books] table.

    The program is a gin HTTP server in front of one SQLite table
    [books(id TEXT PRIMARY KEY, title TEXT, author TEXT, quantity INTEGER)].
    Every handler is a short sequence of database calls, so the embedding is a
    state monad over the database: the table itself and a schedule telling
    which of the coming database calls fail.  Requests are taken after
    [BindJSON]: a body is [None] when decoding failed and [Some] of the decoded
    Go value otherwise.  The [fmt.Printf] traces of the handlers write to the
    console only and are left out, and so is [getBooks], which only reads the
    table.  Requests are served one at a time. *)

From Stdlib Require Import ZArith List String Bool Lia.
Import ListNotations.

Open Scope string_scope.
Open Scope Z_scope.

(** ** Data model *)

(** Go's [int] is 64 bits wide on the platforms the server is built for, and
    so is SQLite's INTEGER storage class. *)
Definition min_int64 : Z := - 2 ^ 63.
Definition max_int64 : Z := 2 ^ 63 - 1.

(** [type book struct]. *)
Record book : Type := mkBook {
  ID : string;
  Title : string;
  Author : string;
  Quantity : Z
}.

(** A value held in the [quantity] column.  The column is written from a Go
    [int], so it starts as an INTEGER; SQLite's [+] and [-] answer with a REAL
    when the exact result does not fit in 64 bits, and the column's INTEGER
    affinity cannot turn such a REAL back.  [Real r] is the floating-point
    number nearest to [r]. *)
Inductive sqlite_num : Type :=
| Integer (z : Z)
| Real (r : Z).

(** A row of table [books]. *)
Record row : Type := mkRow {
  col_id : string;
  col_title : string;
  col_author : string;
  col_quantity : sqlite_num
}.

(** The database behind the global [db]: the rows in insertion order, and for
    each database call still to come whether it fails ([Some msg]) or goes
    through ([None]); once the schedule is used up every call goes through. *)
Record sqlDB : Type := mkDB {
  books : list row;
  faults : list (option string)
}.

(** Go [error] values that occur in the program. *)
Inductive error : Type :=
| ErrNoRows                      (* sql.ErrNoRows *)
| ErrorString (s : string)       (* errors.New(s) *)
| DriverError (msg : string)     (* an error of the SQLite driver *)
| ScanError (column : nat).      (* Scan could not convert a column *)

(** [err.Error()], as [%v] prints it.  The text of a conversion error is cut
    short: no handler prints one. *)
Definition Error (e : error) : string :=
  match e with
  | ErrNoRows => "sql: no rows in result set"
  | ErrorString s => s
  | DriverError msg => msg
  | ScanError _ => "sql: Scan error"
  end.

Inductive result (A : Type) : Type :=
| Ok (a : A)
| Err (e : error).
Arguments Ok {A} a.
Arguments Err {A} e.

(** What a handler hands to [c.IndentedJSON]: [gin.H{"message": s}] or a
    book. *)
Inductive json : Type :=
| H_message (s : string)
| J_book (b : book).

Record response : Type := mkResponse {
  status : Z;
  payload : json
}.

Module http.
Definition StatusOK : Z := 200.
Definition StatusCreated : Z := 201.
Definition StatusBadRequest : Z := 400.
Definition StatusNotFound : Z := 404.
Definition StatusConflict : Z := 409.
Definition StatusInternalServerError : Z := 500.
End http.

Definition IndentedJSON (code : Z) (obj : json) : response :=
  {| status := code; payload := obj |}.

(** ** The database monad *)

Definition IO (A : Type) : Type := sqlDB -> A * sqlDB.

Definition ret {A : Type} (a : A) : IO A := fun d => (a, d).

Definition bind {A B : Type} (m : IO A) (k : A -> IO B) : IO B :=
  fun d => let (a, d') := m d in k a d'.

Declare Scope io_scope.
Delimit Scope io_scope with io.
Notation "x <- m ;; k" := (bind m (fun x => k))
  (at level 100, m at next level, right associativity) : io_scope.
Open Scope io_scope.

(** The outcome scheduled for the database call that starts now. *)
Definition next_fault : IO (option string) :=
  fun d =>
    match faults d with
    | [] => (None, d)
    | f :: fs => (f, {| books := books d; faults := fs |})
    end.

Definition table : IO (list row) := fun d => (books d, d).

Definition set_table (t : list row) : IO unit :=
  fun d => (tt, {| books := t; faults := faults d |}).

(** ** SQL statements *)

(** [... FROM books WHERE id = ?]: the first row whose key is [id]. *)
Definition where_id (id : string) (t : list row) : option row :=
  find (fun r => String.eqb (col_id r) id) t.

(** [row.Scan(&b.ID, &b.Title, &b.Author, &b.Quantity)]: an INTEGER goes into
    the [int] field; a REAL reaches [database/sql] as a [float64], whose text
    (in exponent form at this size) does not parse as an [int]. *)
Definition Scan (r : row) : result book :=
  match col_quantity r with
  | Integer z =>
      Ok {| ID := col_id r; Title := col_title r;
            Author := col_author r; Quantity := z |}
  | Real _ => Err (ScanError 3)
  end.

(** [db.QueryRow("SELECT id, title, author, quantity FROM books WHERE id = ?",
    id)] followed by [Scan]. *)
Definition QueryRow_book (id : string) : IO (result book) :=
  f <- next_fault ;;
  match f with
  | Some msg => ret (Err (DriverError msg))
  | None =>
      t <- table ;;
      match where_id id t with
      | None => ret (Err ErrNoRows)
      | Some r => ret (Scan r)
      end
  end.

(** [db.QueryRow("SELECT id FROM books WHERE id = ?", id).Scan(&existing.ID)]:
    the value left in [existing.ID] (the zero value when nothing was scanned)
    and the error. *)
Definition QueryRow_id (id : string) : IO (string * option error) :=
  f <- next_fault ;;
  match f with
  | Some msg => ret ("", Some (DriverError msg))
  | None =>
      t <- table ;;
      match where_id id t with
      | None => ret ("", Some ErrNoRows)
      | Some r => ret (col_id r, None)
      end
  end.

Definition row_of_book (b : book) : row :=
  {| col_id := ID b; col_title := Title b;
     col_author := Author b; col_quantity := Integer (Quantity b) |}.

(** [db.Exec("INSERT INTO books(id, title, author, quantity) VALUES (?, ?, ?,
    ?)", ...)]: the primary key refuses a second row with the same [id]. *)
Definition Exec_insert (b : book) : IO (option error) :=
  f <- next_fault ;;
  match f with
  | Some msg => ret (Some (DriverError msg))
  | None =>
      t <- table ;;
      match where_id (ID b) t with
      | Some _ => ret (Some (DriverError "UNIQUE constraint failed: books.id"))
      | None => _ <- set_table (t ++ [row_of_book b]) ;; ret None
      end
  end.

(** SQLite's test for a 64-bit sum that does not fit, on exact integers: a
    non-negative [b] can only overflow a positive [a], a negative [b] only a
    negative [a]. *)
Definition add_overflows (a b : Z) : bool :=
  if 0 <=? b
  then (0 <? a) && (max_int64 - a <? b)
  else (a <? 0) && (b + 1 <? - (a + max_int64)).

(** SQLite's [quantity + delta] for [delta] one of 1 and -1: exact on an
    INTEGER while the result fits in 64 bits, a REAL beyond; a REAL that large
    absorbs the unit. *)
Definition sqlite_add (v : sqlite_num) (delta : Z) : sqlite_num :=
  match v with
  | Integer z =>
      if add_overflows z delta then Real (z + delta) else Integer (z + delta)
  | Real r => Real r
  end.

Definition set_quantity (r : row) (v : sqlite_num) : row :=
  {| col_id := col_id r; col_title := col_title r;
     col_author := col_author r; col_quantity := v |}.

Definition update_where_id (delta : Z) (id : string) (t : list row) :
  list row :=
  map (fun r => if String.eqb (col_id r) id
                then set_quantity r (sqlite_add (col_quantity r) delta)
                else r) t.

(** [db.Exec("UPDATE books SET quantity = quantity + delta WHERE id = ?", id)]
    with [delta] 1 (return) or -1 (checkout). *)
Definition Exec_update (delta : Z) (id : string) : IO (option error) :=
  f <- next_fault ;;
  match f with
  | Some msg => ret (Some (DriverError msg))
  | None =>
      t <- table ;;
      _ <- set_table (update_where_id delta id t) ;;
      ret None
  end.

(** ** Handlers *)

(** [func createBook]; [body] is what [c.BindJSON(&newBook)] produced. *)
Definition createBook (body : option book) : IO response :=
  match body with
  | None =>
      ret (IndentedJSON http.StatusBadRequest (H_message "Dados inválidos"))
  | Some newBook =>
      q <- QueryRow_id (ID newBook) ;;
      let (existingID, err) := q in
      match err with
      | Some (ErrorString _ as e) | Some (DriverError _ as e)
      | Some (ScanError _ as e) =>
          (* err != nil && err != sql.ErrNoRows *)
          ret (IndentedJSON http.StatusInternalServerError
                 (H_message ("Erro ao verificar ID do livro: " ++ Error e)))
      | Some ErrNoRows | None =>
          if String.eqb existingID ""
          then
            (* existingBook.ID != "" does not hold: go on to the INSERT *)
            e <- Exec_insert newBook ;;
            match e with
            | Some e =>
                ret (IndentedJSON http.StatusInternalServerError
                       (H_message ("Erro ao adicionar livro: " ++ Error e)))
            | None => ret (IndentedJSON http.StatusCreated (J_book newBook))
            end
          else
            ret (IndentedJSON http.StatusConflict
                   (H_message "ID do livro já existe"))
      end
  end.

(** [func getBookById]: the book found, or the error. *)
Definition getBookById (id : string) : IO (result book) :=
  r <- QueryRow_book id ;;
  match r with
  | Err ErrNoRows =>                      (* err == sql.ErrNoRows *)
      ret (Err (ErrorString "livro não encontrado"))
  | Err e => ret (Err e)
  | Ok b => ret (Ok b)
  end.

Definition livro_nao_encontrado : response :=
  IndentedJSON http.StatusNotFound (H_message "Livro não encontrado").

(** The closure registered for [GET /books/:id] in [main]. *)
Definition getBook (id : string) : IO response :=
  r <- getBookById id ;;
  match r with
  | Err _ => ret livro_nao_encontrado
  | Ok b => ret (IndentedJSON http.StatusOK (J_book b))
  end.

(** [func checkoutBook]; [body] is the [ID] field that [c.BindJSON(&request)]
    produced, empty when the body has none. *)
Definition checkoutBook (body : option string) : IO response :=
  match body with
  | None =>
      ret (IndentedJSON http.StatusBadRequest (H_message "Dados inválidos"))
  | Some id =>
      if String.eqb id ""
      then ret (IndentedJSON http.StatusBadRequest (H_message "ID é necessário"))
      else
        r <- getBookById id ;;
        match r with
        | Err _ => ret livro_nao_encontrado
        | Ok b =>
            if Quantity b <=? 0
            then ret (IndentedJSON http.StatusBadRequest
                        (H_message "Livro não disponível"))
            else
              e <- Exec_update (-1) id ;;
              match e with
              | Some _ =>
                  ret (IndentedJSON http.StatusInternalServerError
                         (H_message "Erro ao realizar checkout"))
              | None => ret (IndentedJSON http.StatusOK (J_book b))
              end
        end
  end.

(** [func returnBook]. *)
Definition returnBook (body : option string) : IO response :=
  match body with
  | None =>
      ret (IndentedJSON http.StatusBadRequest (H_message "Dados inválidos"))
  | Some id =>
      if String.eqb id ""
      then ret (IndentedJSON http.StatusBadRequest (H_message "ID é necessário"))
      else
        r <- getBookById id ;;
        match r with
        | Err _ => ret livro_nao_encontrado
        | Ok b =>
            e <- Exec_update 1 id ;;
            match e with
            | Some _ =>
                ret (IndentedJSON http.StatusInternalServerError
                       (H_message "Erro ao retornar livro"))
            | None => ret (IndentedJSON http.StatusOK (J_book b))
            end
        end
  end.

(** ** The server as a transition system *)

(** The routes of [main], [GET /books] apart. *)
Inductive request : Type :=
| POST_books (body : option book)
| GET_books_id (id : string)
| PATCH_books_checkout (body : option string)
| PATCH_books_return (body : option string).

Definition serve (q : request) : IO response :=
  match q with
  | POST_books body => createBook body
  | GET_books_id id => getBook id
  | PATCH_books_checkout body => checkoutBook body
  | PATCH_books_return body => returnBook body
  end.

(** [initDB] on a fresh [books.db]: an empty table. *)
Definition initDB (schedule : list (option string)) : sqlDB :=
  {| books := []; faults := schedule |}.

Fixpoint run (qs : list request) (d : sqlDB) : sqlDB :=
  match qs with
  | [] => d
  | q :: qs' => run qs' (snd (serve q d))
  end.

(** A database the server can be in after some requests. *)
Definition reachable (d : sqlDB) : Prop :=
  exists qs schedule, d = run qs (initDB schedule).

(** ** Vocabulary of the properties *)

(** The outcome of the database call that comes next, and the database once
    that call has been made without touching the table. *)
Definition next_outcome (d : sqlDB) : option string := hd None (faults d).

Definition tick (d : sqlDB) : sqlDB :=
  {| books := books d; faults := tl (faults d) |}.

(** The next [n] database calls go through. *)
Fixpoint none_scheduled (n : nat) (fs : list (option string)) : Prop :=
  match n, fs with
  | O, _ => True
  | S _, [] => True
  | S n', f :: fs' => f = None /\ none_scheduled n' fs'
  end.

Definition calls_ok (n : nat) (d : sqlDB) : Prop :=
  none_scheduled n (faults d).

Definition quantity_nonneg (v : sqlite_num) : Prop :=
  match v with
  | Integer z => 0 <= z
  | Real r => 0 <= r
  end.

Definition all_nonneg (t : list row) : Prop :=
  Forall (fun r => quantity_nonneg (col_quantity r)) t.

(** The primary key: no two rows share an [id]. *)
Definition unique_ids (t : list row) : Prop := NoDup (map col_id t).

(** A request that does not ask to create a book with a negative quantity. *)
Definition create_nonneg (q : request) : Prop :=
  match q with
  | POST_books (Some b) => 0 <= Quantity b
  | _ => True
  end.

(** The book a row scans to when its quantity is the INTEGER [z]. *)
Definition book_of_row (r : row) (z : Z) : book :=
  {| ID := col_id r; Title := col_title r; Author := col_author r;
     Quantity := z |}.

(** The values of a Go [int], and a column value as SQLite keeps it: an
    INTEGER within 64 bits, a REAL only for what does not fit. *)
Definition int64 (z : Z) : Prop := min_int64 <= z <= max_int64.

Definition stored_ok (v : sqlite_num) : Prop :=
  match v with
  | Integer z => int64 z
  | Real r => ~ int64 r
  end.

Definition all_stored_ok (t : list row) : Prop :=
  Forall (fun r => stored_ok (col_quantity r)) t.

(** A request as [BindJSON] can decode it: the quantity is an [int]. *)
Definition well_typed (q : request) : Prop :=
  match q with
  | POST_books (Some b) => int64 (Quantity b)
  | _ => True
  end.

(** The answers the handlers give on their failure paths. *)
Definition livro_nao_disponivel : response :=
  IndentedJSON http.StatusBadRequest (H_message "Livro não disponível").

Definition id_necessario : response :=
  IndentedJSON http.StatusBadRequest (H_message "ID é necessário").

Definition id_ja_existe : response :=
  IndentedJSON http.StatusConflict (H_message "ID do livro já existe").

(** The error [getBookById] makes up when the SELECT finds no row. *)
Definition not_found : error := ErrorString "livro não encontrado".

(** The errors that come from the storage itself: a failed call or a column
    that does not convert. *)
Definition storage_error (e : error) : Prop :=
  match e with
  | DriverError _ | ScanError _ => True
  | ErrNoRows | ErrorString _ => False
  end.

(** The read of the row kept under [id] fails: the call itself does, or the
    row's quantity is a REAL, which [Scan] cannot put into an [int]. *)
Definition read_fails (id : string) (d : sqlDB) : Prop :=
  next_outcome d <> None \/
  exists r x, where_id id (books d) = Some r /\ col_quantity r = Real x.

(** ** Listing: [getBooks] *)

(** What [getBooks] hands to [c.IndentedJSON]: a message, or the slice
    [books]; the empty list is the nil slice the loop starts from. *)
Inductive books_json : Type :=
| L_message (s : string)
| L_books (bs : list book).

Record books_response : Type := mkBooksResponse {
  books_status : Z;
  books_payload : books_json
}.

(** The loop [for rows.Next() { rows.Scan(...); books = append(books, b) }]
    over the rows the query has still to deliver, [acc] being [books] so far.
    Every [rows.Next()] is a database call of its own, the one that finds no
    further row included.  When it fails it answers false like the end of the
    rows, and the handler never asks [rows.Err()]: the loop just ends. *)
Fixpoint rows_loop (rs : list row) (acc : list book) : IO books_response :=
  match rs with
  | [] =>
      _ <- next_fault ;;
      ret {| books_status := http.StatusOK; books_payload := L_books acc |}
  | r :: rs' =>
      f <- next_fault ;;
      match f with
      | Some _ =>
          ret {| books_status := http.StatusOK; books_payload := L_books acc |}
      | None =>
          match Scan r with
          | Err _ =>
              ret {| books_status := http.StatusInternalServerError;
                     books_payload :=
                       L_message "Erro ao ler os dados dos livros" |}
          | Ok b => rows_loop rs' (acc ++ [b])
          end
      end
  end.

(** [func getBooks]: [db.Query("SELECT id, title, author, quantity FROM
    books")], then the loop. *)
Definition getBooks : IO books_response :=
  f <- next_fault ;;
  match f with
  | Some _ =>
      ret {| books_status := http.StatusInternalServerError;
             books_payload := L_message "Erro ao buscar livros" |}
  | None => t <- table ;; rows_loop t []
  end.

(** A row that [Scan] reads as the book [b], and a row it can read at all. *)
Definition scans_to (r : row) (b : book) : Prop := Scan r = Ok b.

Definition readable (r : row) : Prop := exists z, col_quantity r = Integer z.

(** What makes a row the book it is, its quantity apart. *)
Definition identity (r : row) : string * string * string :=
  (col_id r, col_title r, col_author r).

(** ** The SQL statements on the table *)

Section Statements.

Variable id : string.

Lemma where_id_key (t : list row) (r : row) :
  where_id id t = Some r -> col_id r = id.
Proof.
  unfold where_id. intros H. apply find_some in H.
  destruct H as [_ H]. now apply String.eqb_eq.
Qed.

Lemma where_id_None (t : list row) :
  where_id id t = None <-> ~ In id (map col_id t).
Proof.
  unfold where_id. induction t as [|r t IH]; simpl.
  - tauto.
  - destruct (String.eqb_spec (col_id r) id) as [E|E].
    + split; [discriminate | intros H; exfalso; apply H; now left].
    + rewrite IH. tauto.
Qed.

Lemma where_id_app (t : list row) (r : row) :
  where_id id (t ++ [r]) =
  match where_id id t with
  | Some x => Some x
  | None => if String.eqb (col_id r) id then Some r else None
  end.
Proof.
  unfold where_id. induction t as [|x t IH]; simpl.
  - reflexivity.
  - destruct (String.eqb (col_id x) id); [reflexivity | exact IH].
Qed.

(** After the UPDATE the row found under [id] is the old one with its
    quantity moved by [delta]. *)
Lemma where_id_update (delta : Z) (t : list row) :
  where_id id (update_where_id delta id t) =
  option_map (fun r => set_quantity r (sqlite_add (col_quantity r) delta))
             (where_id id t).
Proof.
  unfold where_id, update_where_id. induction t as [|x t IH]; simpl.
  - reflexivity.
  - destruct (String.eqb (col_id x) id) eqn:E; simpl; rewrite E.
    + reflexivity.
    + exact IH.
Qed.

(** The UPDATE leaves the rows kept under any other key as they were. *)
Lemma where_id_update_other (delta : Z) (id' : string) (t : list row) :
  id' <> id ->
  where_id id' (update_where_id delta id t) = where_id id' t.
Proof.
  intros Hne. unfold where_id, update_where_id.
  induction t as [|x t IH]; simpl.
  - reflexivity.
  - destruct (String.eqb_spec (col_id x) id) as [E|E]; simpl.
    + destruct (String.eqb_spec (col_id x) id') as [E'|E'].
      * congruence.
      * exact IH.
    + destruct (String.eqb (col_id x) id'); [reflexivity | exact IH].
Qed.

Lemma update_keeps_ids (delta : Z) (t : list row) :
  map col_id (update_where_id delta id t) = map col_id t.
Proof.
  unfold update_where_id. rewrite map_map. apply map_ext.
  intros x. now destruct (String.eqb (col_id x) id).
Qed.

(** Under the primary key the row found by the SELECT is the only one the
    UPDATE touches. *)
Lemma unique_row (t : list row) (r r' : row) :
  unique_ids t -> where_id id t = Some r ->
  In r' t -> col_id r' = id -> r' = r.
Proof.
  unfold unique_ids, where_id.
  induction t as [|x t IH]; simpl; intros Hnd Hf Hin Hid.
  - contradiction.
  - inversion Hnd as [|? ? Hnotin Hnd']; subst.
    destruct (String.eqb_spec (col_id x) (col_id r')) as [E|E].
    + injection Hf as <-. destruct Hin as [->|Hin]; [reflexivity|].
      exfalso. apply Hnotin. rewrite E. now apply in_map.
    + destruct Hin as [->|Hin]; [congruence|]. now apply IH.
Qed.

End Statements.

(** [sqlite_add] is the exact sum on 64-bit operands whenever the sum fits. *)
Lemma sqlite_add_fits (z delta : Z) :
  min_int64 <= z <= max_int64 -> delta = 1 \/ delta = -1 ->
  sqlite_add (Integer z) delta =
  if (min_int64 <=? z + delta) && (z + delta <=? max_int64)
  then Integer (z + delta) else Real (z + delta).
Proof.
  unfold sqlite_add, add_overflows, min_int64, max_int64.
  intros Hz [-> | ->]; simpl (0 <=? _);
    cbv iota;
    repeat match goal with
      | |- context [?a <? ?b] => destruct (Z.ltb_spec a b)
      | |- context [?a <=? ?b] => destruct (Z.leb_spec a b)
      end; simpl; try reflexivity; lia.
Qed.

Lemma sqlite_sub_positive (z : Z) :
  0 < z -> sqlite_add (Integer z) (-1) = Integer (z - 1).
Proof.
  intros Hz. unfold sqlite_add, add_overflows. simpl (0 <=? -1).
  cbv iota. destruct (Z.ltb_spec z 0); [lia | reflexivity].
Qed.

Lemma sqlite_add_below_max (z : Z) :
  z < max_int64 -> sqlite_add (Integer z) 1 = Integer (z + 1).
Proof.
  intros Hz. unfold sqlite_add, add_overflows. simpl (0 <=? 1).
  cbv iota. destruct (Z.ltb_spec (max_int64 - z) 1); [lia|].
  now rewrite andb_false_r.
Qed.

Lemma sqlite_add_changes (z : Z) :
  sqlite_add (Integer z) 1 <> Integer z.
Proof.
  unfold sqlite_add. destruct (add_overflows z 1); intros H;
    [discriminate | injection H; lia].
Qed.

Lemma sqlite_add_nonneg (v : sqlite_num) :
  quantity_nonneg v -> quantity_nonneg (sqlite_add v 1).
Proof.
  destruct v as [z|r]; simpl; [|trivial].
  intros Hz. destruct (add_overflows z 1); simpl; lia.
Qed.

(** ** The database calls, one equation each *)

Lemma calls_ok_next (n : nat) (d : sqlDB) :
  calls_ok (S n) d -> next_outcome d = None.
Proof.
  unfold calls_ok, next_outcome. destruct (faults d) as [|f fs]; simpl.
  - reflexivity.
  - now intros [-> _].
Qed.

Lemma calls_ok_fewer (n : nat) (d : sqlDB) :
  calls_ok (S n) d -> calls_ok n d.
Proof.
  unfold calls_ok. generalize (faults d) as fs.
  induction n as [|n IH]; intros fs; [now intros _|].
  destruct fs as [|f fs]; [now intros _|].
  intros [Hf H]. split; [exact Hf | now apply IH].
Qed.

Lemma calls_ok_tick (n : nat) (d : sqlDB) :
  calls_ok (S n) d -> calls_ok n (tick d).
Proof.
  unfold calls_ok, tick. destruct (faults d) as [|f fs]; simpl.
  - intros _. now destruct n.
  - now intros [_ H].
Qed.

Lemma QueryRow_id_eq (id : string) (d : sqlDB) :
  QueryRow_id id d =
  (match next_outcome d with
   | Some msg => ("", Some (DriverError msg))
   | None =>
       match where_id id (books d) with
       | None => ("", Some ErrNoRows)
       | Some r => (col_id r, None)
       end
   end, tick d).
Proof.
  destruct d as [t [|[msg|] fs]];
    unfold QueryRow_id, bind, next_fault, table, next_outcome, tick; simpl;
    try reflexivity; now destruct (where_id id t).
Qed.

Lemma getBookById_eq (id : string) (d : sqlDB) :
  getBookById id d =
  (match next_outcome d with
   | Some msg => Err (DriverError msg)
   | None =>
       match where_id id (books d) with
       | None => Err (ErrorString "livro não encontrado")
       | Some r => Scan r
       end
   end, tick d).
Proof.
  destruct d as [t [|[msg|] fs]];
    unfold getBookById, QueryRow_book, bind, next_fault, table, next_outcome,
      tick; simpl; try reflexivity;
    (destruct (where_id id t) as [r|]; simpl; [|reflexivity];
     unfold Scan; now destruct (col_quantity r)).
Qed.

Lemma Exec_insert_eq (b : book) (d : sqlDB) :
  Exec_insert b d =
  match next_outcome d with
  | Some msg => (Some (DriverError msg), tick d)
  | None =>
      match where_id (ID b) (books d) with
      | Some _ =>
          (Some (DriverError "UNIQUE constraint failed: books.id"), tick d)
      | None =>
          (None, {| books := books d ++ [row_of_book b];
                    faults := tl (faults d) |})
      end
  end.
Proof.
  destruct d as [t [|[msg|] fs]];
    unfold Exec_insert, bind, next_fault, table, set_table, next_outcome,
      tick; simpl; try reflexivity; now destruct (where_id (ID b) t).
Qed.

Lemma Exec_update_eq (delta : Z) (id : string) (d : sqlDB) :
  Exec_update delta id d =
  match next_outcome d with
  | Some msg => (Some (DriverError msg), tick d)
  | None =>
      (None, {| books := update_where_id delta id (books d);
                faults := tl (faults d) |})
  end.
Proof.
  now destruct d as [t [|[msg|] fs]].
Qed.

Lemma Scan_Integer (r : row) (z : Z) :
  col_quantity r = Integer z -> Scan r = Ok (book_of_row r z).
Proof.
  unfold Scan. now intros ->.
Qed.

(** A lookup never touches the table. *)
Lemma getBookById_reads (id : string) (d : sqlDB) :
  books (snd (getBookById id d)) = books d.
Proof.
  now rewrite getBookById_eq.
Qed.

(** ** Lookup: [getBookById] and the [GET /books/:id] route *)

(** [getBookById] itself tells its two failures apart.  It fails with the
    not-found error exactly when the read goes through and no row has the
    given id; it fails with an error of the storage exactly when the read
    fails; and no error of the storage is the not-found error.  The table is
    not touched.  Its three callers do not keep the difference, see
    [getBook_eq], [checkoutBook_eq] and [returnBook_eq]. *)
Theorem getBookById_failure_modes (id : string) (d : sqlDB) :
  (fst (getBookById id d) = Err not_found <->
   next_outcome d = None /\ where_id id (books d) = None) /\
  ((exists e, fst (getBookById id d) = Err e /\ storage_error e) <->
   read_fails id d) /\
  (forall e, storage_error e -> e <> not_found) /\
  books (snd (getBookById id d)) = books d.
Proof.
  rewrite getBookById_eq. unfold read_fails, not_found. simpl.
  assert (Hdistinct : forall e, storage_error e ->
                                e <> ErrorString "livro não encontrado")
    by (intros e He ->; exact He).
  destruct (next_outcome d) as [msg|].
  - split; [|split; [|split; [exact Hdistinct | reflexivity]]].
    + split; [discriminate | intros [H _]; discriminate].
    + split; [intros _; left; discriminate|].
      intros _. exists (DriverError msg). now split.
  - destruct (where_id id (books d)) as [r|] eqn:Hr.
    + unfold Scan. destruct (col_quantity r) as [z|x] eqn:Hq;
        (split; [|split; [|split; [exact Hdistinct | reflexivity]]]).
      * split; [discriminate | intros [_ H]; discriminate].
      * split; [intros [e [H _]]; discriminate|].
        intros [H|[r' [x [H H']]]]; [now elim H | congruence].
      * split; [discriminate | intros [_ H]; discriminate].
      * split; [intros _; right; now exists r, x|].
        intros _. exists (ScanError 3). now split.
    + split; [|split; [|split; [exact Hdistinct | reflexivity]]].
      * now split.
      * split.
        -- intros [e [H He]]. injection H as <-. contradiction.
        -- intros [H|[r [x [H _]]]]; [now elim H | discriminate].
Qed.

(** The route answers 404 on every failure of the lookup. *)
Lemma getBook_eq (id : string) (d : sqlDB) :
  getBook id d =
  (match fst (getBookById id d) with
   | Err _ => livro_nao_encontrado
   | Ok b => IndentedJSON http.StatusOK (J_book b)
   end, tick d).
Proof.
  unfold getBook, bind. rewrite getBookById_eq. simpl.
  now destruct (next_outcome d), (where_id id (books d)) as [r|];
    try destruct (Scan r) as [b|[]].
Qed.

(** ** Checkout and return *)

Lemma checkoutBook_eq (id : string) (d : sqlDB) :
  id <> "" ->
  checkoutBook (Some id) d =
  match fst (getBookById id d) with
  | Err _ => (livro_nao_encontrado, tick d)
  | Ok b =>
      if Quantity b <=? 0 then (livro_nao_disponivel, tick d)
      else
        match next_outcome (tick d) with
        | Some _ =>
            (IndentedJSON http.StatusInternalServerError
               (H_message "Erro ao realizar checkout"), tick (tick d))
        | None =>
            (IndentedJSON http.StatusOK (J_book b),
             {| books := update_where_id (-1) id (books d);
                faults := tl (tl (faults d)) |})
        end
  end.
Proof.
  intros Hid. apply String.eqb_neq in Hid.
  unfold checkoutBook, bind. rewrite Hid.
  destruct (getBookById id d) as [[b|e] d'] eqn:Hget;
    rewrite getBookById_eq in Hget; injection Hget as Hr <-; simpl.
  - destruct (Quantity b <=? 0); [reflexivity|].
    rewrite Exec_update_eq. now destruct (next_outcome (tick d)).
  - reflexivity.
Qed.

Lemma returnBook_eq (id : string) (d : sqlDB) :
  id <> "" ->
  returnBook (Some id) d =
  match fst (getBookById id d) with
  | Err _ => (livro_nao_encontrado, tick d)
  | Ok b =>
      match next_outcome (tick d) with
      | Some _ =>
          (IndentedJSON http.StatusInternalServerError
             (H_message "Erro ao retornar livro"), tick (tick d))
      | None =>
          (IndentedJSON http.StatusOK (J_book b),
           {| books := update_where_id 1 id (books d);
              faults := tl (tl (faults d)) |})
      end
  end.
Proof.
  intros Hid. apply String.eqb_neq in Hid.
  unfold returnBook, bind. rewrite Hid.
  destruct (getBookById id d) as [[b|e] d'] eqn:Hget;
    rewrite getBookById_eq in Hget; injection Hget as Hr <-; simpl.
  - rewrite Exec_update_eq. now destruct (next_outcome (tick d)).
  - reflexivity.
Qed.

(** Both handlers turn the empty id away before any database call. *)
Lemma empty_id_rejected (d : sqlDB) :
  checkoutBook (Some "") d = (id_necessario, d) /\
  returnBook (Some "") d = (id_necessario, d).
Proof.
  now split.
Qed.

(** The lookup of a present row whose quantity is an INTEGER, when the call
    goes through. *)
Lemma getBookById_present (id : string) (d : sqlDB) (r : row) (z : Z) :
  calls_ok 1 d -> where_id id (books d) = Some r ->
  col_quantity r = Integer z ->
  getBookById id d = (Ok (book_of_row r z), tick d).
Proof.
  intros Hok Hr Hq. rewrite getBookById_eq.
  now rewrite (calls_ok_next 0 d Hok), Hr, (Scan_Integer r z Hq).
Qed.

(** C7 (amended).  For an id that no row has, the lookup fails with the
    not-found error when its database call goes through, the [GET] route
    answers 404 whatever the storage does, and for a non-empty such id so do
    checkout and return; the table is unchanged every time. *)
Theorem unknown_id_not_found (id : string) (d : sqlDB) :
  where_id id (books d) = None ->
  (calls_ok 1 d -> getBookById id d = (Err not_found, tick d)) /\
  (fst (getBook id d) = livro_nao_encontrado /\
   books (snd (getBook id d)) = books d) /\
  (id <> "" ->
   (fst (checkoutBook (Some id) d) = livro_nao_encontrado /\
    books (snd (checkoutBook (Some id) d)) = books d) /\
   (fst (returnBook (Some id) d) = livro_nao_encontrado /\
    books (snd (returnBook (Some id) d)) = books d)).
Proof.
  intros Hnone.
  assert (Hget : exists e, fst (getBookById id d) = Err e).
  { rewrite getBookById_eq, Hnone. simpl.
    destruct (next_outcome d); eexists; reflexivity. }
  destruct Hget as [e He]. split; [|split].
  - intros Hok. rewrite getBookById_eq.
    now rewrite (calls_ok_next 0 d Hok), Hnone.
  - rewrite getBook_eq, He. now split.
  - intros Hid. rewrite (checkoutBook_eq id d Hid), (returnBook_eq id d Hid).
    rewrite He. now repeat split.
Qed.

(** C3 (amended).  Checking out a book kept under a non-empty id whose
    quantity is 0 fails with "Livro não disponível" when the lookup's
    database call goes through; whether it does or not, the answer is not 200
    and the table is the one before. *)
Theorem checkout_unavailable (id : string) (d : sqlDB) (r : row) :
  id <> "" ->
  where_id id (books d) = Some r -> col_quantity r = Integer 0 ->
  (calls_ok 1 d ->
   checkoutBook (Some id) d = (livro_nao_disponivel, tick d)) /\
  status (fst (checkoutBook (Some id) d)) <> http.StatusOK /\
  books (snd (checkoutBook (Some id) d)) = books d.
Proof.
  intros Hid Hr Hq. rewrite (checkoutBook_eq id d Hid). split.
  - intros Hok. now rewrite (getBookById_present id d r 0 Hok Hr Hq).
  - rewrite getBookById_eq, Hr, (Scan_Integer r 0 Hq). cbn [fst].
    destruct (next_outcome d); split; (discriminate || reflexivity).
Qed.

(** C2 (amended).  Checking out a book kept under a non-empty id whose
    quantity is [n > 0] succeeds when the database calls go through (two for
    the checkout, one for the lookup after it), and that lookup finds the
    same id, title and author with quantity [n - 1]; the rows under other ids
    are as before. *)
Theorem checkout_decrements (id : string) (d : sqlDB) (r : row) (n : Z) :
  id <> "" -> calls_ok 3 d ->
  where_id id (books d) = Some r -> col_quantity r = Integer n -> 0 < n ->
  status (fst (checkoutBook (Some id) d)) = http.StatusOK /\
  fst (getBookById id (snd (checkoutBook (Some id) d))) =
    Ok (book_of_row r (n - 1)) /\
  (forall id', id' <> id ->
     where_id id' (books (snd (checkoutBook (Some id) d))) =
     where_id id' (books d)).
Proof.
  intros Hid Hok Hr Hq Hn. rewrite (checkoutBook_eq id d Hid).
  pose proof (calls_ok_fewer 1 d (calls_ok_fewer 2 d Hok)) as Hok0.
  pose proof (calls_ok_tick 2 d Hok) as Hok1.
  pose proof (calls_ok_tick 1 (tick d) Hok1) as Hok2.
  rewrite (getBookById_present id d r n Hok0 Hr Hq).
  cbn [fst Quantity book_of_row].
  destruct (Z.leb_spec n 0) as [Hle|_]; [lia|].
  rewrite (calls_ok_next 1 (tick d) Hok1).
  cbn [fst snd]. split; [reflexivity|]. split.
  - rewrite getBookById_eq.
    change (next_outcome _) with (next_outcome (tick (tick d))).
    rewrite (calls_ok_next 0 _ Hok2). cbn [fst books].
    rewrite where_id_update, Hr. cbn [option_map].
    unfold Scan. cbn [col_quantity set_quantity].
    rewrite Hq, (sqlite_sub_positive n Hn). reflexivity.
  - intros id' Hne. now apply where_id_update_other.
Qed.

(** C6 (amended).  Returning a book kept under a non-empty id whose quantity
    is [n] with [0 <= n < 2^63 - 1] succeeds when the database calls go
    through (two for the return, one for the lookup after it), and that
    lookup reports quantity [n + 1]. *)
Theorem return_increments (id : string) (d : sqlDB) (r : row) (n : Z) :
  id <> "" -> calls_ok 3 d ->
  where_id id (books d) = Some r -> col_quantity r = Integer n ->
  0 <= n -> n < max_int64 ->
  status (fst (returnBook (Some id) d)) = http.StatusOK /\
  fst (getBookById id (snd (returnBook (Some id) d))) =
    Ok (book_of_row r (n + 1)).
Proof.
  intros Hid Hok Hr Hq _ Hn. rewrite (returnBook_eq id d Hid).
  pose proof (calls_ok_fewer 1 d (calls_ok_fewer 2 d Hok)) as Hok0.
  pose proof (calls_ok_tick 2 d Hok) as Hok1.
  pose proof (calls_ok_tick 1 (tick d) Hok1) as Hok2.
  rewrite (getBookById_present id d r n Hok0 Hr Hq). cbn [fst].
  rewrite (calls_ok_next 1 (tick d) Hok1).
  cbn [fst snd]. split; [reflexivity|].
  rewrite getBookById_eq.
  change (next_outcome _) with (next_outcome (tick (tick d))).
  rewrite (calls_ok_next 0 _ Hok2). cbn [fst books].
  rewrite where_id_update, Hr. cbn [option_map].
  unfold Scan. cbn [col_quantity set_quantity].
  rewrite Hq, (sqlite_add_below_max n Hn). reflexivity.
Qed.

(** Closes a goal whose hypothesis equates two different status codes. *)
Ltac wrong_status :=
  let H := fresh "H" in intros H; cbv in H; discriminate H.

(** What SQLite's [quantity + 1] leaves of an INTEGER, written out. *)
Lemma sqlite_add_one (q : Z) :
  sqlite_add (Integer q) 1 =
  if q <? max_int64 then Integer (q + 1) else Real (q + 1).
Proof.
  unfold sqlite_add, add_overflows. simpl (0 <=? 1). cbv iota.
  destruct (Z.ltb_spec q max_int64) as [Hlt|Hge].
  - destruct (Z.ltb_spec (max_int64 - q) 1); [lia|].
    now rewrite andb_false_r.
  - destruct (Z.ltb_spec 0 q); [|unfold max_int64 in Hge; lia].
    destruct (Z.ltb_spec (max_int64 - q) 1); [reflexivity | lia].
Qed.

(** C4.  When checkout or return answers 200, the book [b] in the answer is
    the row [r] that was stored under the id before the UPDATE: same id,
    title and author, and [Quantity b] is the quantity stored then.  The row
    [r'] stored under the id afterwards holds another quantity:
    [Quantity b - 1] after a checkout, [Quantity b + 1] after a return (a
    REAL when that does not fit in 64 bits). *)
Theorem response_is_pre_update_read (body : option string) (d : sqlDB) :
  (status (fst (checkoutBook body d)) = http.StatusOK ->
   exists id b r r',
     body = Some id /\
     payload (fst (checkoutBook body d)) = J_book b /\
     where_id id (books d) = Some r /\
     where_id id (books (snd (checkoutBook body d))) = Some r' /\
     (ID b = col_id r /\ Title b = col_title r /\ Author b = col_author r /\
      col_quantity r = Integer (Quantity b)) /\
     col_quantity r' = Integer (Quantity b - 1) /\
     col_quantity r' <> Integer (Quantity b)) /\
  (status (fst (returnBook body d)) = http.StatusOK ->
   exists id b r r',
     body = Some id /\
     payload (fst (returnBook body d)) = J_book b /\
     where_id id (books d) = Some r /\
     where_id id (books (snd (returnBook body d))) = Some r' /\
     (ID b = col_id r /\ Title b = col_title r /\ Author b = col_author r /\
      col_quantity r = Integer (Quantity b)) /\
     col_quantity r' =
       (if Quantity b <? max_int64
        then Integer (Quantity b + 1) else Real (Quantity b + 1)) /\
     col_quantity r' <> Integer (Quantity b)).
Proof.
  split.
  - destruct body as [id|]; [|wrong_status].
    destruct (string_dec id "") as [->|Hid]; [wrong_status|].
    rewrite (checkoutBook_eq id d Hid), getBookById_eq. cbn [fst].
    destruct (next_outcome d); [wrong_status|].
    destruct (where_id id (books d)) as [r|] eqn:Hr; [|wrong_status].
    unfold Scan. destruct (col_quantity r) as [q|x] eqn:Hq; [|wrong_status].
    cbn [Quantity]. destruct (Z.leb_spec q 0) as [Hle|Hlt]; [wrong_status|].
    destruct (next_outcome (tick d)); [wrong_status|].
    intros _.
    exists id, (book_of_row r q),
      r, (set_quantity r (sqlite_add (col_quantity r) (-1))).
    cbn [fst snd payload IndentedJSON books].
    split; [reflexivity|]. split; [reflexivity|]. split; [exact Hr|].
    split; [now rewrite where_id_update, Hr|].
    split; [now repeat split|].
    cbn [col_quantity set_quantity Quantity book_of_row].
    rewrite Hq, (sqlite_sub_positive q Hlt).
    split; [reflexivity|]. intros H. injection H. lia.
  - destruct body as [id|]; [|wrong_status].
    destruct (string_dec id "") as [->|Hid]; [wrong_status|].
    rewrite (returnBook_eq id d Hid), getBookById_eq. cbn [fst].
    destruct (next_outcome d); [wrong_status|].
    destruct (where_id id (books d)) as [r|] eqn:Hr; [|wrong_status].
    unfold Scan. destruct (col_quantity r) as [q|x] eqn:Hq; [|wrong_status].
    destruct (next_outcome (tick d)); [wrong_status|].
    intros _.
    exists id, (book_of_row r q),
      r, (set_quantity r (sqlite_add (col_quantity r) 1)).
    cbn [fst snd payload IndentedJSON books].
    split; [reflexivity|]. split; [reflexivity|]. split; [exact Hr|].
    split; [now rewrite where_id_update, Hr|].
    split; [now repeat split|].
    cbn [col_quantity set_quantity Quantity book_of_row].
    rewrite Hq, sqlite_add_one.
    split; [reflexivity|].
    destruct (q <? max_int64); intros H; [injection H; lia | discriminate].
Qed.

(** ** Creation *)

Lemma createBook_eq (b : book) (d : sqlDB) :
  createBook (Some b) d =
  match next_outcome d with
  | Some msg =>
      (IndentedJSON http.StatusInternalServerError
         (H_message ("Erro ao verificar ID do livro: " ++ msg)), tick d)
  | None =>
      match where_id (ID b) (books d) with
      | Some _ =>
          if String.eqb (ID b) ""
          then
            (IndentedJSON http.StatusInternalServerError
               (H_message
                  ("Erro ao adicionar livro: " ++
                   match next_outcome (tick d) with
                   | Some msg => msg
                   | None => "UNIQUE constraint failed: books.id"
                   end)), tick (tick d))
          else (id_ja_existe, tick d)
      | None =>
          match next_outcome (tick d) with
          | Some msg =>
              (IndentedJSON http.StatusInternalServerError
                 (H_message ("Erro ao adicionar livro: " ++ msg)),
               tick (tick d))
          | None =>
              (IndentedJSON http.StatusCreated (J_book b),
               {| books := books d ++ [row_of_book b];
                  faults := tl (tl (faults d)) |})
          end
      end
  end.
Proof.
  unfold createBook, bind. rewrite QueryRow_id_eq.
  destruct (next_outcome d) as [msg|]; [reflexivity|].
  destruct (where_id (ID b) (books d)) as [r|] eqn:Hr.
  - rewrite (where_id_key _ _ _ Hr).
    destruct (String.eqb (ID b) ""); [|reflexivity].
    rewrite Exec_insert_eq. cbn [books tick]. rewrite Hr.
    now destruct (next_outcome (tick d)).
  - cbn [String.eqb]. rewrite Exec_insert_eq. cbn [books tick]. rewrite Hr.
    now destruct (next_outcome (tick d)).
Qed.

(** A second book under an id that is present and not empty is refused with
    409 and the table is unchanged. *)
Lemma createBook_conflict (b : book) (d : sqlDB) (r : row) :
  ID b <> "" -> calls_ok 1 d -> where_id (ID b) (books d) = Some r ->
  createBook (Some b) d = (id_ja_existe, tick d).
Proof.
  intros Hid Hok Hr. rewrite createBook_eq.
  rewrite (calls_ok_next 0 d Hok), Hr.
  apply String.eqb_neq in Hid. now rewrite Hid.
Qed.

(** Whatever it answers, [createBook] leaves the rows already there alone. *)
Lemma createBook_keeps_rows (b : book) (d : sqlDB) :
  books (snd (createBook (Some b) d)) = books d \/
  (where_id (ID b) (books d) = None /\
   books (snd (createBook (Some b) d)) = (books d ++ [row_of_book b])%list).
Proof.
  rewrite createBook_eq.
  destruct (next_outcome d); [now left|].
  destruct (where_id (ID b) (books d)).
  - left. now destruct (String.eqb (ID b) "").
  - destruct (next_outcome (tick d)); [now left | now right].
Qed.

(** C5 (the code at the failing input).  With a book stored under the empty
    id, creating another book under the empty id does not answer 409: the
    handler takes the id for absent, lets the INSERT run into the primary key
    and answers 500.  The database is the one before. *)
Theorem createBook_duplicate_empty_id :
  let first := {| ID := ""; Title := "T"; Author := "A"; Quantity := 1 |} in
  let second := {| ID := ""; Title := "U"; Author := "B"; Quantity := 2 |} in
  let d := run [POST_books (Some first)] (initDB []) in
  where_id "" (books d) = Some (row_of_book first) /\
  createBook (Some second) d =
    (IndentedJSON http.StatusInternalServerError
       (H_message
          "Erro ao adicionar livro: UNIQUE constraint failed: books.id"),
     d).
Proof.
  split; reflexivity.
Qed.

(** C9.  When [createBook] answers 201 the id was fresh, and the lookup of
    that id that follows returns the book that was supplied, id, title,
    author and quantity, when its database call goes through (and the [GET]
    route answers 200 with it); the only other thing the lookup can return is
    the driver's error of a failed call. *)
Theorem create_then_get (b : book) (d : sqlDB) :
  status (fst (createBook (Some b) d)) = http.StatusCreated ->
  where_id (ID b) (books d) = None /\
  (calls_ok 1 (snd (createBook (Some b) d)) ->
   getBookById (ID b) (snd (createBook (Some b) d)) =
     (Ok b, tick (snd (createBook (Some b) d))) /\
   fst (getBook (ID b) (snd (createBook (Some b) d))) =
     IndentedJSON http.StatusOK (J_book b)) /\
  (fst (getBookById (ID b) (snd (createBook (Some b) d))) = Ok b \/
   exists msg,
     fst (getBookById (ID b) (snd (createBook (Some b) d))) =
       Err (DriverError msg)).
Proof.
  rewrite createBook_eq.
  destruct (next_outcome d); [wrong_status|].
  destruct (where_id (ID b) (books d)) eqn:Hr.
  { destruct (String.eqb (ID b) ""); wrong_status. }
  destruct (next_outcome (tick d)); [wrong_status|].
  intros _. cbn [snd]. split; [reflexivity|].
  set (d' := {| books := books d ++ [row_of_book b];
                faults := tl (tl (faults d)) |}).
  assert (Hfind : where_id (ID b) (books d') = Some (row_of_book b)).
  { unfold d'. cbn [books]. rewrite where_id_app, Hr.
    cbn [col_id row_of_book]. now rewrite String.eqb_refl. }
  assert (Hscan : Scan (row_of_book b) = Ok b) by now destruct b.
  split.
  - intros Hok.
    assert (Hget : getBookById (ID b) d' = (Ok b, tick d')).
    { rewrite getBookById_eq.
      now rewrite (calls_ok_next 0 d' Hok), Hfind, Hscan. }
    split; [exact Hget|]. now rewrite getBook_eq, Hget.
  - rewrite getBookById_eq. cbn [fst]. rewrite Hfind, Hscan.
    destruct (next_outcome d') as [msg|]; [right; now exists msg | now left].
Qed.

(** C10.  [createBook] never answers 400 to a body that decoded, whatever the
    fields hold, and never stores anything but the supplied values: the
    table afterwards is the table before, or the table before followed by
    one row whose id, title, author and quantity are those of the body.
    When the id is not in the table and the two database calls go through,
    that row is inserted and the answer is 201 with the book. *)
Theorem createBook_no_validation (b : book) (d : sqlDB) :
  status (fst (createBook (Some b) d)) <> http.StatusBadRequest /\
  (books (snd (createBook (Some b) d)) = books d \/
   books (snd (createBook (Some b) d)) =
     (books d ++ [{| col_id := ID b; col_title := Title b;
                     col_author := Author b;
                     col_quantity := Integer (Quantity b) |}])%list) /\
  (calls_ok 2 d -> where_id (ID b) (books d) = None ->
   createBook (Some b) d =
     (IndentedJSON http.StatusCreated (J_book b),
      {| books := books d ++ [{| col_id := ID b; col_title := Title b;
                                 col_author := Author b;
                                 col_quantity := Integer (Quantity b) |}];
         faults := tl (tl (faults d)) |})).
Proof.
  split; [|split].
  - rewrite createBook_eq.
    destruct (next_outcome d); [wrong_status|].
    destruct (where_id (ID b) (books d)).
    + destruct (String.eqb (ID b) ""); wrong_status.
    + destruct (next_outcome (tick d)); wrong_status.
  - destruct (createBook_keeps_rows b d) as [H|[_ H]];
      [now left | right; exact H].
  - intros Hok Hr. rewrite createBook_eq.
    rewrite (calls_ok_next 1 d Hok), Hr.
    now rewrite (calls_ok_next 0 (tick d) (calls_ok_tick 1 d Hok)).
Qed.

(** The same slip for any book and any database: a taken empty id is not
    recognised as taken. *)
Lemma createBook_empty_id_taken (b : book) (d : sqlDB) (r : row) :
  ID b = "" -> calls_ok 2 d -> where_id "" (books d) = Some r ->
  createBook (Some b) d =
    (IndentedJSON http.StatusInternalServerError
       (H_message
          "Erro ao adicionar livro: UNIQUE constraint failed: books.id"),
     tick (tick d)).
Proof.
  intros Hid Hok Hr. rewrite createBook_eq. rewrite Hid, Hr.
  rewrite (calls_ok_next 1 d Hok).
  now rewrite (calls_ok_next 0 (tick d) (calls_ok_tick 1 d Hok)).
Qed.

(** ** The quantity invariant *)

Lemma checkoutBook_keeps_rows (body : option string) (d : sqlDB) :
  books (snd (checkoutBook body d)) = books d \/
  exists id r z,
    where_id id (books d) = Some r /\ col_quantity r = Integer z /\ 0 < z /\
    books (snd (checkoutBook body d)) = update_where_id (-1) id (books d).
Proof.
  destruct body as [id|]; [|now left].
  destruct (string_dec id "") as [->|Hid]; [now left|].
  rewrite (checkoutBook_eq id d Hid), getBookById_eq. cbn [fst].
  destruct (next_outcome d); [now left|].
  destruct (where_id id (books d)) as [r|] eqn:Hr; [|now left].
  unfold Scan. destruct (col_quantity r) as [z|x] eqn:Hq; [|now left].
  cbn [Quantity]. destruct (Z.leb_spec z 0) as [Hle|Hlt]; [now left|].
  destruct (next_outcome (tick d)); [now left|].
  right. now exists id, r, z.
Qed.

Lemma returnBook_keeps_rows (body : option string) (d : sqlDB) :
  books (snd (returnBook body d)) = books d \/
  exists id, books (snd (returnBook body d)) = update_where_id 1 id (books d).
Proof.
  destruct body as [id|]; [|now left].
  destruct (string_dec id "") as [->|Hid]; [now left|].
  rewrite (returnBook_eq id d Hid).
  destruct (fst (getBookById id d)); [|now left].
  destruct (next_outcome (tick d)); [now left|].
  right. now exists id.
Qed.

Lemma update_minus_nonneg (id : string) (t : list row) (r : row) (z : Z) :
  unique_ids t -> all_nonneg t ->
  where_id id t = Some r -> col_quantity r = Integer z -> 0 < z ->
  all_nonneg (update_where_id (-1) id t).
Proof.
  intros Huniq Hall Hr Hq Hz. unfold all_nonneg, update_where_id.
  apply Forall_map, Forall_forall. intros x Hx.
  unfold all_nonneg in Hall. rewrite Forall_forall in Hall.
  destruct (String.eqb_spec (col_id x) id) as [E|_]; [|now apply Hall].
  rewrite (unique_row id t r x Huniq Hr Hx E). cbn [col_quantity set_quantity].
  rewrite Hq, (sqlite_sub_positive z Hz). simpl. lia.
Qed.

Lemma update_plus_nonneg (id : string) (t : list row) :
  all_nonneg t -> all_nonneg (update_where_id 1 id t).
Proof.
  intros Hall. unfold all_nonneg, update_where_id.
  apply Forall_map. unfold all_nonneg in Hall.
  apply (Forall_impl _ (P := fun r => quantity_nonneg (col_quantity r)));
    [|exact Hall].
  intros x Hx. destruct (String.eqb (col_id x) id); [|exact Hx].
  cbn [col_quantity set_quantity]. now apply sqlite_add_nonneg.
Qed.

Lemma insert_unique (t : list row) (b : book) :
  unique_ids t -> where_id (ID b) t = None ->
  unique_ids (t ++ [row_of_book b]).
Proof.
  unfold unique_ids. intros Huniq Hnone. apply where_id_None in Hnone.
  rewrite map_app. cbn [map col_id row_of_book].
  induction t as [|x t IH]; simpl in *.
  - constructor; [tauto | constructor].
  - inversion Huniq as [|? ? Hx Ht]; subst. constructor.
    + rewrite in_app_iff. simpl. intros [H|[H|[]]]; [tauto|].
      apply Hnone. now left.
    + apply IH; [exact Ht | tauto].
Qed.

(** One request keeps the primary key and, unless it creates a book with a
    negative quantity, keeps every quantity at 0 or above. *)
Lemma serve_invariant (q : request) (d : sqlDB) :
  create_nonneg q ->
  unique_ids (books d) /\ all_nonneg (books d) ->
  unique_ids (books (snd (serve q d))) /\ all_nonneg (books (snd (serve q d))).
Proof.
  intros Hq [Huniq Hall]. destruct q as [[b|]|id|body|body]; cbn [serve].
  - destruct (createBook_keeps_rows b d) as [->|[Hnone ->]]; [now split|].
    split; [now apply insert_unique|].
    apply Forall_app. split; [exact Hall|].
    constructor; [exact Hq | constructor].
  - now split.
  - rewrite getBook_eq. now split.
  - destruct (checkoutBook_keeps_rows body d)
      as [->|[id [r [z [Hr [Hz [Hpos ->]]]]]]]; [now split|].
    split.
    + unfold unique_ids. now rewrite update_keeps_ids.
    + now apply (update_minus_nonneg id (books d) r z).
  - destruct (returnBook_keeps_rows body d) as [->|[id ->]]; [now split|].
    split.
    + unfold unique_ids. now rewrite update_keeps_ids.
    + now apply update_plus_nonneg.
Qed.

Lemma run_invariant (qs : list request) :
  Forall create_nonneg qs ->
  forall d, unique_ids (books d) /\ all_nonneg (books d) ->
            unique_ids (books (run qs d)) /\ all_nonneg (books (run qs d)).
Proof.
  induction 1 as [|q qs Hq _ IH]; intros d Hd; cbn [run].
  - exact Hd.
  - apply IH. now apply serve_invariant.
Qed.

(** *** The column stays well typed *)

Lemma sqlite_add_stored_ok (v : sqlite_num) (delta : Z) :
  delta = 1 \/ delta = -1 -> stored_ok v -> stored_ok (sqlite_add v delta).
Proof.
  intros Hdelta Hv. destruct v as [z|r]; [|exact Hv].
  rewrite (sqlite_add_fits z delta Hv Hdelta).
  destruct (Z.leb_spec min_int64 (z + delta)) as [Hlo|Hlo];
    destruct (Z.leb_spec (z + delta) max_int64) as [Hhi|Hhi];
    cbn [andb stored_ok]; unfold int64; lia.
Qed.

Lemma update_stored_ok (delta : Z) (id : string) (t : list row) :
  delta = 1 \/ delta = -1 -> all_stored_ok t ->
  all_stored_ok (update_where_id delta id t).
Proof.
  intros Hdelta Hall. unfold all_stored_ok, update_where_id.
  apply Forall_map. unfold all_stored_ok in Hall.
  apply (Forall_impl _ (P := fun r => stored_ok (col_quantity r)));
    [|exact Hall].
  intros x Hx. destruct (String.eqb (col_id x) id); [|exact Hx].
  cbn [col_quantity set_quantity]. now apply sqlite_add_stored_ok.
Qed.

(** Requests that [BindJSON] can produce keep every INTEGER of the column
    within 64 bits: [sqlite_add] is only ever applied where SQLite's own
    arithmetic is. *)
Lemma serve_stored_ok (q : request) (d : sqlDB) :
  well_typed q -> all_stored_ok (books d) ->
  all_stored_ok (books (snd (serve q d))).
Proof.
  intros Hq Hall. destruct q as [[b|]|id|body|body]; cbn [serve].
  - destruct (createBook_keeps_rows b d) as [->|[_ ->]]; [exact Hall|].
    apply Forall_app. split; [exact Hall|].
    constructor; [exact Hq | constructor].
  - exact Hall.
  - now rewrite getBook_eq.
  - destruct (checkoutBook_keeps_rows body d) as [->|[id [r [z H]]]];
      [exact Hall|].
    destruct H as [_ [_ [_ ->]]].
    apply update_stored_ok; [now right | exact Hall].
  - destruct (returnBook_keeps_rows body d) as [->|[id ->]]; [exact Hall|].
    apply update_stored_ok; [now left|exact Hall].
Qed.

Lemma run_stored_ok (qs : list request) (schedule : list (option string)) :
  Forall well_typed qs -> all_stored_ok (books (run qs (initDB schedule))).
Proof.
  intros Hqs.
  assert (H : forall d, all_stored_ok (books d) ->
                        all_stored_ok (books (run qs d))).
  { induction Hqs as [|q qs Hq _ IH]; intros d Hd; cbn [run].
    - exact Hd.
    - apply IH. now apply serve_stored_ok. }
  apply H. constructor.
Qed.

(** A row whose quantity has become a REAL can no longer be read: lookup,
    checkout and return of its id fail and leave the table alone. *)
Lemma real_quantity_unreadable (id : string) (d : sqlDB) (r : row) (x : Z) :
  id <> "" -> where_id id (books d) = Some r -> col_quantity r = Real x ->
  (exists e, fst (getBookById id d) = Err e) /\
  checkoutBook (Some id) d = (livro_nao_encontrado, tick d) /\
  returnBook (Some id) d = (livro_nao_encontrado, tick d).
Proof.
  intros Hid Hr Hq.
  assert (Hget : exists e, fst (getBookById id d) = Err e).
  { rewrite getBookById_eq, Hr. unfold Scan. rewrite Hq. cbn [fst].
    destruct (next_outcome d); eexists; reflexivity. }
  split; [exact Hget|]. destruct Hget as [e He].
  rewrite (checkoutBook_eq id d Hid), (returnBook_eq id d Hid), He.
  now split.
Qed.

(** Checkout refuses a book whose quantity is 0 or below, whatever the
    storage does, and leaves the table alone. *)
Lemma checkout_rejects_nonpositive
    (id : string) (d : sqlDB) (r : row) (z : Z) :
  where_id id (books d) = Some r -> col_quantity r = Integer z -> z <= 0 ->
  status (fst (checkoutBook (Some id) d)) <> http.StatusOK /\
  books (snd (checkoutBook (Some id) d)) = books d.
Proof.
  intros Hr Hq Hz.
  destruct (string_dec id "") as [->|Hid]; [split; [discriminate|reflexivity]|].
  rewrite (checkoutBook_eq id d Hid), getBookById_eq. cbn [fst].
  destruct (next_outcome d); [split; [discriminate|reflexivity]|].
  rewrite Hr, (Scan_Integer r z Hq). cbn [Quantity book_of_row].
  destruct (Z.leb_spec z 0) as [_|Hlt]; [|lia].
  split; [discriminate|reflexivity].
Qed.

(** C1 (amended).  From the empty table, as long as no create request
    supplies a negative quantity, every stored quantity is 0 or above after
    any sequence of create, lookup, checkout and return requests, whatever
    calls of the storage fail; and in such a state a checkout of a book whose
    quantity is 0 or below is refused and leaves the table as it was. *)
Theorem quantity_never_negative
    (qs : list request) (schedule : list (option string)) :
  Forall create_nonneg qs ->
  all_nonneg (books (run qs (initDB schedule))) /\
  (forall id r z,
     where_id id (books (run qs (initDB schedule))) = Some r ->
     col_quantity r = Integer z -> z <= 0 ->
     status (fst (checkoutBook (Some id) (run qs (initDB schedule))))
       <> http.StatusOK /\
     books (snd (checkoutBook (Some id) (run qs (initDB schedule)))) =
       books (run qs (initDB schedule))).
Proof.
  intros Hqs. split.
  - apply (run_invariant qs Hqs (initDB schedule)).
    split; constructor.
  - intros id r z. apply checkout_rejects_nonpositive.
Qed.

(** ** The end-to-end scenario *)

(** Create [b1] with quantity 2 (201); two checkouts (200 each) leave 1 and
    then 0; a third is refused with "Livro não disponível" (400); a return
    (200) leaves 1. *)
Example end_to_end_scenario :
  let b1 := {| ID := "b1"; Title := "T"; Author := "A"; Quantity := 2 |} in
  let d0 := initDB [] in
  let d1 := snd (createBook (Some b1) d0) in
  let d2 := snd (checkoutBook (Some "b1") d1) in
  let d3 := snd (checkoutBook (Some "b1") d2) in
  let d4 := snd (checkoutBook (Some "b1") d3) in
  let d5 := snd (returnBook (Some "b1") d4) in
  status (fst (createBook (Some b1) d0)) = http.StatusCreated /\
  (status (fst (checkoutBook (Some "b1") d1)) = http.StatusOK /\
   map col_quantity (books d2) = [Integer 1]) /\
  (status (fst (checkoutBook (Some "b1") d2)) = http.StatusOK /\
   map col_quantity (books d3) = [Integer 0]) /\
  (fst (checkoutBook (Some "b1") d3) = livro_nao_disponivel /\
   map col_quantity (books d4) = [Integer 0]) /\
  (status (fst (returnBook (Some "b1") d4)) = http.StatusOK /\
   map col_quantity (books d5) = [Integer 1]).
Proof.
  cbv zeta. repeat split.
Qed.

(** ** Where the handlers part from the stated properties *)

(** Against C1 as stated: one create request with quantity -1 puts a negative
    quantity into the table. *)
Lemma negative_quantity_reachable :
  let item := {| ID := "b1"; Title := "T"; Author := "A"; Quantity := -1 |} in
  let d := run [POST_books (Some item)] (initDB []) in
  reachable d /\
  fst (createBook (Some item) (initDB [])) =
    IndentedJSON http.StatusCreated (J_book item) /\
  books d = [row_of_book item] /\
  ~ all_nonneg (books d).
Proof.
  cbv zeta. repeat split.
  - now exists [POST_books (Some (mkBook "b1" "T" "A" (-1)))], [].
  - intros H. inversion H as [|x l Hneg _]; subst.
    cbv in Hneg. now apply Hneg.
Qed.

(** Against C2 as stated: a book stored under the empty id with quantity 1
    cannot be checked out; the handler answers 400 before any lookup and the
    quantity stays 1. *)
Lemma checkout_empty_id_refused :
  let item := {| ID := ""; Title := "T"; Author := "A"; Quantity := 1 |} in
  let d := run [POST_books (Some item)] (initDB []) in
  where_id "" (books d) = Some (row_of_book item) /\
  checkoutBook (Some "") d = (id_necessario, d) /\
  status id_necessario <> http.StatusOK /\
  fst (getBookById "" (snd (checkoutBook (Some "") d))) = Ok item.
Proof.
  cbv zeta. repeat split. discriminate.
Qed.

(** Against C3 as stated: for a book stored under the empty id with quantity
    0 the checkout fails with "ID é necessário", not with "Livro não
    disponível". *)
Lemma checkout_empty_id_not_unavailable :
  let item := {| ID := ""; Title := "T"; Author := "A"; Quantity := 0 |} in
  let d := run [POST_books (Some item)] (initDB []) in
  where_id "" (books d) = Some (row_of_book item) /\
  fst (checkoutBook (Some "") d) = id_necessario /\
  fst (checkoutBook (Some "") d) <> livro_nao_disponivel.
Proof.
  cbv zeta. repeat split. discriminate.
Qed.

(** Against C6 as stated: returning a book whose quantity is 2^63 - 1 is
    answered 200, but the quantity stored is then a REAL and the lookup that
    follows fails instead of reporting 2^63; and a book stored under the
    empty id cannot be returned at all. *)
Lemma return_not_always_incrementing :
  let full := {| ID := "b1"; Title := "T"; Author := "A";
                 Quantity := max_int64 |} in
  let d := run [POST_books (Some full)] (initDB []) in
  let item := {| ID := ""; Title := "T"; Author := "A"; Quantity := 1 |} in
  let d0 := run [POST_books (Some item)] (initDB []) in
  (where_id "b1" (books d) = Some (row_of_book full) /\
   status (fst (returnBook (Some "b1") d)) = http.StatusOK /\
   where_id "b1" (books (snd (returnBook (Some "b1") d))) =
     Some (set_quantity (row_of_book full) (Real (max_int64 + 1))) /\
   fst (getBookById "b1" (snd (returnBook (Some "b1") d))) =
     Err (ScanError 3)) /\
  (where_id "" (books d0) = Some (row_of_book item) /\
   returnBook (Some "") d0 = (id_necessario, d0) /\
   status id_necessario <> http.StatusOK).
Proof.
  cbv zeta. repeat split. discriminate.
Qed.

(** Against C7 as stated: for the empty id, which no row of the empty table
    has, checkout and return fail with "ID é necessário" (400), not with
    "Livro não encontrado" (404). *)
Lemma unknown_empty_id_invalid_input :
  where_id "" (books (initDB [])) = None /\
  fst (checkoutBook (Some "") (initDB [])) = id_necessario /\
  fst (returnBook (Some "") (initDB [])) = id_necessario /\
  id_necessario <> livro_nao_encontrado.
Proof.
  repeat split. discriminate.
Qed.


(** ** The theorems at concrete requests *)

Lemma quantity_never_negative_witness :
  let item := {| ID := "b1"; Title := "T"; Author := "A"; Quantity := 1 |} in
  let qs := [POST_books (Some item); PATCH_books_checkout (Some "b1");
             PATCH_books_checkout (Some "b1")] in
  Forall create_nonneg qs /\
  all_nonneg (books (run qs (initDB [Some "disk I/O error"]))) /\
  status (fst (checkoutBook (Some "b1") (run qs (initDB [])))) <>
    http.StatusOK.
Proof.
  cbv zeta.
  assert (H : Forall create_nonneg
                [POST_books (Some (mkBook "b1" "T" "A" 1));
                 PATCH_books_checkout (Some "b1");
                 PATCH_books_checkout (Some "b1")]).
  { repeat constructor. simpl. lia. }
  split; [exact H|]. split.
  - exact (proj1 (quantity_never_negative _ [Some "disk I/O error"] H)).
  - refine (proj1 (proj2 (quantity_never_negative _ [] H)
                     "b1" (mkRow "b1" "T" "A" (Integer 0)) 0 _ _ _));
      [reflexivity | reflexivity | lia].
Defined.

Lemma checkout_decrements_witness :
  let item := {| ID := "b1"; Title := "T"; Author := "A"; Quantity := 2 |} in
  let d := run [POST_books (Some item)] (initDB [None; None; None; None]) in
  calls_ok 3 d /\
  status (fst (checkoutBook (Some "b1") d)) = http.StatusOK /\
  fst (getBookById "b1" (snd (checkoutBook (Some "b1") d))) =
    Ok {| ID := "b1"; Title := "T"; Author := "A"; Quantity := 1 |}.
Proof.
  cbv zeta.
  assert (Hok : calls_ok 3
                  (run [POST_books (Some (mkBook "b1" "T" "A" 2))]
                     (initDB [None; None; None; None])))
    by (cbn; tauto).
  split; [exact Hok|].
  pose proof (fun Hid =>
                checkout_decrements "b1" _ (mkRow "b1" "T" "A" (Integer 2)) 2
                  Hid Hok eq_refl eq_refl eq_refl) as H.
  destruct H as [H1 [H2 _]]; [discriminate|].
  split; [exact H1 | exact H2].
Defined.

Lemma checkout_unavailable_witness :
  let item := {| ID := "b1"; Title := "T"; Author := "A"; Quantity := 0 |} in
  let d := run [POST_books (Some item)] (initDB []) in
  checkoutBook (Some "b1") d = (livro_nao_disponivel, d).
Proof.
  cbv zeta.
  apply (proj1 (checkout_unavailable "b1"
                  (run [POST_books (Some (mkBook "b1" "T" "A" 0))] (initDB []))
                  (mkRow "b1" "T" "A" (Integer 0))
                  ltac:(discriminate) eq_refl eq_refl)).
  exact I.
Defined.

Lemma response_is_pre_update_read_witness :
  let item := {| ID := "b1"; Title := "T"; Author := "A"; Quantity := 2 |} in
  let d := run [POST_books (Some item)] (initDB []) in
  status (fst (checkoutBook (Some "b1") d)) = http.StatusOK /\
  exists b r',
    payload (fst (checkoutBook (Some "b1") d)) = J_book b /\
    Quantity b = 2 /\
    where_id "b1" (books (snd (checkoutBook (Some "b1") d))) = Some r' /\
    col_quantity r' = Integer 1.
Proof.
  cbv zeta. split; [reflexivity|].
  destruct (proj1 (response_is_pre_update_read (Some "b1")
                     (run [POST_books (Some (mkBook "b1" "T" "A" 2))]
                        (initDB []))) eq_refl)
    as [id [b [r [r' [Hid [Hb [Hr [Hr' [[_ [_ [_ Hq]]] [Hq' _]]]]]]]]]].
  injection Hid as <-.
  assert (H2 : Quantity b = 2).
  { vm_compute in Hr. injection Hr as <-. cbn in Hq. now injection Hq. }
  exists b, r'. split; [exact Hb|]. split; [exact H2|].
  split; [exact Hr'|]. now rewrite Hq', H2.
Defined.

Lemma return_increments_witness :
  let item := {| ID := "b1"; Title := "T"; Author := "A"; Quantity := 0 |} in
  let d := run [POST_books (Some item)] (initDB []) in
  status (fst (returnBook (Some "b1") d)) = http.StatusOK /\
  fst (getBookById "b1" (snd (returnBook (Some "b1") d))) =
    Ok {| ID := "b1"; Title := "T"; Author := "A"; Quantity := 1 |}.
Proof.
  cbv zeta.
  apply (return_increments "b1" _ (mkRow "b1" "T" "A" (Integer 0)) 0);
    [discriminate | exact I | reflexivity | reflexivity | lia
    | unfold max_int64; lia].
Defined.

Lemma unknown_id_not_found_witness :
  let item := {| ID := "b1"; Title := "T"; Author := "A"; Quantity := 2 |} in
  let d := run [POST_books (Some item)] (initDB []) in
  getBookById "b2" d = (Err not_found, d) /\
  fst (getBook "b2" d) = livro_nao_encontrado /\
  fst (checkoutBook (Some "b2") d) = livro_nao_encontrado /\
  fst (returnBook (Some "b2") d) = livro_nao_encontrado.
Proof.
  cbv zeta.
  pose proof (unknown_id_not_found "b2"
                (run [POST_books (Some (mkBook "b1" "T" "A" 2))] (initDB []))
                eq_refl) as [Hget [[Hroute _] Hpatch]].
  destruct Hpatch as [[Hout _] [Hback _]]; [discriminate|].
  split; [exact (Hget I)|].
  split; [exact Hroute|]. split; [exact Hout | exact Hback].
Defined.

Lemma create_then_get_witness :
  let item := {| ID := "b1"; Title := "T"; Author := "A"; Quantity := 2 |} in
  let d' := snd (createBook (Some item) (initDB [])) in
  status (fst (createBook (Some item) (initDB []))) = http.StatusCreated /\
  getBookById "b1" d' = (Ok item, d') /\
  fst (getBook "b1" d') = IndentedJSON http.StatusOK (J_book item).
Proof.
  cbv zeta. split; [reflexivity|].
  exact (proj1 (proj2 (create_then_get (mkBook "b1" "T" "A" 2) (initDB [])
                         eq_refl)) I).
Defined.

Lemma createBook_no_validation_witness :
  let item := {| ID := ""; Title := "T"; Author := "A"; Quantity := -3 |} in
  createBook (Some item) (initDB []) =
    (IndentedJSON http.StatusCreated (J_book item),
     {| books := [{| col_id := ""; col_title := "T"; col_author := "A";
                     col_quantity := Integer (-3) |}];
        faults := [] |}).
Proof.
  cbv zeta.
  exact (proj2 (proj2 (createBook_no_validation (mkBook "" "T" "A" (-3))
                         (initDB []))) I eq_refl).
Defined.

(** ** Listing the catalog: [getBooks] *)

Lemma next_fault_eq (d : sqlDB) : next_fault d = (next_outcome d, tick d).
Proof.
  now destruct d as [t [|f fs]].
Qed.

Lemma rows_loop_nil (acc : list book) (d : sqlDB) :
  rows_loop [] acc d =
  ({| books_status := http.StatusOK; books_payload := L_books acc |}, tick d).
Proof.
  cbn [rows_loop]. unfold bind. now rewrite next_fault_eq.
Qed.

Lemma rows_loop_cons (r : row) (rs : list row) (acc : list book) (d : sqlDB) :
  rows_loop (r :: rs) acc d =
  match next_outcome d with
  | Some _ =>
      ({| books_status := http.StatusOK; books_payload := L_books acc |},
       tick d)
  | None =>
      match Scan r with
      | Err _ =>
          ({| books_status := http.StatusInternalServerError;
              books_payload := L_message "Erro ao ler os dados dos livros" |},
           tick d)
      | Ok b => rows_loop rs (acc ++ [b]) (tick d)
      end
  end.
Proof.
  cbn [rows_loop]. unfold bind. rewrite next_fault_eq.
  destruct (next_outcome d); [reflexivity|]. now destruct (Scan r).
Qed.

Lemma getBooks_eq (d : sqlDB) :
  getBooks d =
  match next_outcome d with
  | Some _ =>
      ({| books_status := http.StatusInternalServerError;
          books_payload := L_message "Erro ao buscar livros" |}, tick d)
  | None => rows_loop (books d) [] (tick d)
  end.
Proof.
  unfold getBooks, bind. rewrite next_fault_eq.
  now destruct (next_outcome d).
Qed.

Lemma unreadable_row (r : row) :
  (exists e, Scan r = Err e) <-> exists x, col_quantity r = Real x.
Proof.
  unfold Scan. destruct (col_quantity r) as [z|x].
  - split; intros [y H]; discriminate.
  - split; intros _; eexists; reflexivity.
Qed.

Lemma readable_scans (r : row) : readable r -> exists b, scans_to r b.
Proof.
  intros [z Hz]. exists (book_of_row r z). now apply Scan_Integer.
Qed.

Lemma nth_fault_tick (k : nat) (d : sqlDB) :
  nth (S k) (faults d) None = nth k (faults (tick d)) None.
Proof.
  unfold tick. cbn [faults].
  destruct (faults d); [now destruct k | reflexivity].
Qed.

(** The loop only reads. *)
Lemma rows_loop_reads (rs : list row) :
  forall (acc : list book) (d : sqlDB),
    books (snd (rows_loop rs acc d)) = books d.
Proof.
  induction rs as [|r rs IH]; intros acc d.
  - now rewrite rows_loop_nil.
  - rewrite rows_loop_cons. destruct (next_outcome d); [reflexivity|].
    destruct (Scan r); [|reflexivity]. now rewrite IH.
Qed.

(** What the loop can answer: 200 with [acc] and the books of the first [k]
    rows, for some [k], or 500 about a row that does not scan. *)
Lemma rows_loop_answers (rs : list row) :
  forall (acc : list book) (d : sqlDB),
    (exists k bs,
       fst (rows_loop rs acc d) =
         {| books_status := http.StatusOK;
            books_payload := L_books (acc ++ bs) |} /\
       Forall2 scans_to (firstn k rs) bs) \/
    fst (rows_loop rs acc d) =
      {| books_status := http.StatusInternalServerError;
         books_payload := L_message "Erro ao ler os dados dos livros" |}.
Proof.
  induction rs as [|r rs IH]; intros acc d.
  - left. exists 0%nat, []. rewrite rows_loop_nil, app_nil_r.
    split; [reflexivity | constructor].
  - rewrite rows_loop_cons. destruct (next_outcome d).
    + left. exists 0%nat, []. rewrite app_nil_r.
      split; [reflexivity | constructor].
    + destruct (Scan r) as [b|e] eqn:Hb; [|now right].
      destruct (IH (acc ++ [b])%list (tick d)) as [[k [bs [H1 H2]]]|H];
        [left | now right].
      exists (S k), (b :: bs). rewrite H1, <- app_assoc.
      split; [reflexivity|]. cbn [firstn]. now constructor.
Qed.

(** With its calls going through and every row readable, the loop delivers
    every row. *)
Lemma rows_loop_all (rs : list row) :
  forall (acc : list book) (d : sqlDB),
    calls_ok (List.length rs) d -> Forall readable rs ->
    exists bs,
      fst (rows_loop rs acc d) =
        {| books_status := http.StatusOK;
           books_payload := L_books (acc ++ bs) |} /\
      Forall2 scans_to rs bs.
Proof.
  induction rs as [|r rs IH]; intros acc d Hok Hall.
  - exists []. rewrite rows_loop_nil, app_nil_r.
    split; [reflexivity | constructor].
  - inversion Hall as [|? ? Hr Hrs]; subst.
    destruct (readable_scans r Hr) as [b Hb]. unfold scans_to in Hb.
    rewrite rows_loop_cons, (calls_ok_next _ d Hok), Hb.
    destruct (IH (acc ++ [b])%list (tick d) (calls_ok_tick _ d Hok) Hrs)
      as [bs [H1 H2]].
    exists (b :: bs). rewrite H1, <- app_assoc.
    split; [reflexivity | now constructor].
Qed.

(** A [rows.Next()] that fails after [k] rows ends the loop with those [k]
    books and status 200. *)
Lemma rows_loop_cut (k : nat) :
  forall (rs : list row) (acc : list book) (d : sqlDB) (msg : string),
    (k < List.length rs)%nat -> Forall readable (firstn k rs) ->
    calls_ok k d -> nth k (faults d) None = Some msg ->
    exists bs,
      fst (rows_loop rs acc d) =
        {| books_status := http.StatusOK;
           books_payload := L_books (acc ++ bs) |} /\
      Forall2 scans_to (firstn k rs) bs.
Proof.
  induction k as [|k IH]; intros rs acc d msg Hlen Hall Hok Hnth.
  - destruct rs as [|r rs]; [cbn in Hlen; lia|].
    exists []. rewrite rows_loop_cons, app_nil_r.
    unfold next_outcome. destruct (faults d) as [|f fs]; [discriminate|].
    cbn in Hnth. subst f. split; [reflexivity | constructor].
  - destruct rs as [|r rs]; [cbn in Hlen; lia|].
    cbn [firstn] in Hall. inversion Hall as [|? ? Hr Hrs]; subst.
    destruct (readable_scans r Hr) as [b Hb]. unfold scans_to in Hb.
    rewrite rows_loop_cons, (calls_ok_next _ d Hok), Hb.
    rewrite nth_fault_tick in Hnth. cbn [List.length] in Hlen.
    destruct (IH rs (acc ++ [b])%list (tick d) msg) as [bs [H1 H2]];
      [lia | exact Hrs | now apply calls_ok_tick | exact Hnth |].
    exists (b :: bs). rewrite H1, <- app_assoc.
    split; [reflexivity|]. cbn [firstn]. now constructor.
Qed.

(** With its calls going through, the loop stops with 500 at the first row
    that does not scan. *)
Lemma rows_loop_unreadable (rs : list row) :
  forall (acc : list book) (d : sqlDB),
    calls_ok (List.length rs) d ->
    Exists (fun r => exists x, col_quantity r = Real x) rs ->
    fst (rows_loop rs acc d) =
      {| books_status := http.StatusInternalServerError;
         books_payload := L_message "Erro ao ler os dados dos livros" |}.
Proof.
  induction rs as [|r rs IH]; intros acc d Hok Hex.
  - inversion Hex.
  - rewrite rows_loop_cons, (calls_ok_next _ d Hok).
    destruct (Scan r) as [b|e] eqn:Hb; [|reflexivity].
    apply IH; [now apply calls_ok_tick|].
    inversion Hex as [? ? Hx|? ? Hrs]; subst; [|exact Hrs].
    apply unreadable_row in Hx. destruct Hx as [e He]. congruence.
Qed.

Lemma scans_to_fields (r : row) (b : book) :
  scans_to r b ->
  ID b = col_id r /\ Title b = col_title r /\ Author b = col_author r /\
  col_quantity r = Integer (Quantity b).
Proof.
  unfold scans_to, Scan. destruct (col_quantity r); [|discriminate].
  intros [= <-]. now repeat split.
Qed.

(** X1.  When the query and the [rows.Next()] call for each row go through
    and every row is readable, [getBooks] answers 200 with one book per row,
    in the order of the table, each carrying the id, title, author and
    quantity stored in its row (for the empty table: the empty slice); the
    table is unchanged. *)
Theorem getBooks_lists_every_book (d : sqlDB) :
  calls_ok (S (List.length (books d))) d -> Forall readable (books d) ->
  exists bs,
    fst (getBooks d) =
      {| books_status := http.StatusOK; books_payload := L_books bs |} /\
    Forall2 (fun r b =>
               ID b = col_id r /\ Title b = col_title r /\
               Author b = col_author r /\
               col_quantity r = Integer (Quantity b)) (books d) bs /\
    books (snd (getBooks d)) = books d.
Proof.
  intros Hok Hall. rewrite getBooks_eq, (calls_ok_next _ d Hok).
  destruct (rows_loop_all (books d) [] (tick d) (calls_ok_tick _ d Hok) Hall)
    as [bs [H1 H2]].
  exists bs. split; [exact H1|]. split.
  - revert H2. apply Forall2_impl. exact scans_to_fields.
  - now rewrite rows_loop_reads.
Qed.

(** [getBooks] only reads, and answers one of three things. *)
Lemma getBooks_reads (d : sqlDB) : books (snd (getBooks d)) = books d.
Proof.
  rewrite getBooks_eq. destruct (next_outcome d); [reflexivity|].
  now rewrite rows_loop_reads.
Qed.

Lemma getBooks_answers (d : sqlDB) :
  (exists k bs,
     fst (getBooks d) =
       {| books_status := http.StatusOK; books_payload := L_books bs |} /\
     Forall2 scans_to (firstn k (books d)) bs) \/
  fst (getBooks d) =
    {| books_status := http.StatusInternalServerError;
       books_payload := L_message "Erro ao buscar livros" |} \/
  fst (getBooks d) =
    {| books_status := http.StatusInternalServerError;
       books_payload := L_message "Erro ao ler os dados dos livros" |}.
Proof.
  rewrite getBooks_eq. destruct (next_outcome d).
  - right. now left.
  - destruct (rows_loop_answers (books d) [] (tick d)) as [[k [bs H]]|H].
    + left. now exists k, bs.
    + right. now right.
Qed.

(** X2.  Whatever the storage does, [getBooks] leaves the table as it is, and
    its answer is one of three: 500 "Erro ao buscar livros", 500 "Erro ao ler
    os dados dos livros", or 200 with the books of the first [k] rows of the
    table, in order, for some [k]. *)
Theorem getBooks_reads_a_prefix (d : sqlDB) :
  books (snd (getBooks d)) = books d /\
  ((exists k bs,
      fst (getBooks d) =
        {| books_status := http.StatusOK; books_payload := L_books bs |} /\
      Forall2 scans_to (firstn k (books d)) bs) \/
   fst (getBooks d) =
     {| books_status := http.StatusInternalServerError;
        books_payload := L_message "Erro ao buscar livros" |} \/
   fst (getBooks d) =
     {| books_status := http.StatusInternalServerError;
        books_payload := L_message "Erro ao ler os dados dos livros" |}).
Proof.
  split; [apply getBooks_reads | apply getBooks_answers].
Qed.

(** X3.  The handler does not look at [rows.Err()]: when the [rows.Next()]
    after the first [k] rows fails, with more rows still to come, [getBooks]
    answers 200 with the books of those [k] rows only. *)
Theorem getBooks_truncates_silently (d : sqlDB) (k : nat) (msg : string) :
  (k < List.length (books d))%nat -> Forall readable (firstn k (books d)) ->
  calls_ok (S k) d -> nth (S k) (faults d) None = Some msg ->
  exists bs,
    fst (getBooks d) =
      {| books_status := http.StatusOK; books_payload := L_books bs |} /\
    Forall2 scans_to (firstn k (books d)) bs /\
    (List.length bs < List.length (books d))%nat.
Proof.
  intros Hlen Hall Hok Hnth.
  rewrite getBooks_eq, (calls_ok_next _ d Hok).
  rewrite nth_fault_tick in Hnth.
  destruct (rows_loop_cut k (books d) [] (tick d) msg Hlen Hall
              (calls_ok_tick _ d Hok) Hnth) as [bs [H1 H2]].
  exists bs. split; [exact H1|]. split; [exact H2|].
  apply Forall2_length in H2. rewrite <- H2, length_firstn. lia.
Qed.

(** X4.  One row whose quantity does not scan (a quantity that has overflowed
    into a REAL) fails the whole listing: with its calls going through,
    [getBooks] answers 500 "Erro ao ler os dados dos livros". *)
Theorem getBooks_fails_on_unreadable_row (d : sqlDB) :
  calls_ok (S (List.length (books d))) d ->
  Exists (fun r => exists x, col_quantity r = Real x) (books d) ->
  fst (getBooks d) =
    {| books_status := http.StatusInternalServerError;
       books_payload := L_message "Erro ao ler os dados dos livros" |}.
Proof.
  intros Hok Hex. rewrite getBooks_eq, (calls_ok_next _ d Hok).
  apply rows_loop_unreadable; [now apply calls_ok_tick | exact Hex].
Qed.

(** ** How the table evolves *)

(** The three writing handlers, by what they do to the table: nothing, unless
    the answer is 201 (create: one row appended under a fresh id) or 200
    (checkout, return: the quantity under the request's id moved). *)
Lemma createBook_cases (body : option book) (d : sqlDB) :
  (status (fst (createBook body d)) <> http.StatusCreated /\
   books (snd (createBook body d)) = books d) \/
  (status (fst (createBook body d)) = http.StatusCreated /\
   exists b, body = Some b /\ where_id (ID b) (books d) = None /\
             books (snd (createBook body d)) =
               (books d ++ [row_of_book b])%list).
Proof.
  destruct body as [b|]; [|left; split; [discriminate | reflexivity]].
  rewrite createBook_eq.
  destruct (next_outcome d); [left; split; [discriminate | reflexivity]|].
  destruct (where_id (ID b) (books d)) eqn:Hr.
  - left. destruct (String.eqb (ID b) "");
      split; (discriminate || reflexivity).
  - destruct (next_outcome (tick d));
      [left; split; [discriminate | reflexivity]|].
    right. split; [reflexivity|]. now exists b.
Qed.

Lemma checkoutBook_cases (body : option string) (d : sqlDB) :
  (status (fst (checkoutBook body d)) <> http.StatusOK /\
   books (snd (checkoutBook body d)) = books d) \/
  (status (fst (checkoutBook body d)) = http.StatusOK /\
   exists id r z,
     body = Some id /\ id <> "" /\ where_id id (books d) = Some r /\
     col_quantity r = Integer z /\ 0 < z /\
     books (snd (checkoutBook body d)) = update_where_id (-1) id (books d)).
Proof.
  destruct body as [id|]; [|left; split; [discriminate | reflexivity]].
  destruct (string_dec id "") as [->|Hid];
    [left; split; [discriminate | reflexivity]|].
  rewrite (checkoutBook_eq id d Hid), getBookById_eq. cbn [fst].
  destruct (next_outcome d); [left; split; [discriminate | reflexivity]|].
  destruct (where_id id (books d)) as [r|] eqn:Hr;
    [|left; split; [discriminate | reflexivity]].
  unfold Scan. destruct (col_quantity r) as [z|x] eqn:Hq;
    [|left; split; [discriminate | reflexivity]].
  cbn [Quantity]. destruct (Z.leb_spec z 0) as [Hle|Hlt];
    [left; split; [discriminate | reflexivity]|].
  destruct (next_outcome (tick d));
    [left; split; [discriminate | reflexivity]|].
  right. split; [reflexivity|]. now exists id, r, z.
Qed.

Lemma returnBook_cases (body : option string) (d : sqlDB) :
  (status (fst (returnBook body d)) <> http.StatusOK /\
   books (snd (returnBook body d)) = books d) \/
  (status (fst (returnBook body d)) = http.StatusOK /\
   exists id r z,
     body = Some id /\ id <> "" /\ where_id id (books d) = Some r /\
     col_quantity r = Integer z /\
     books (snd (returnBook body d)) = update_where_id 1 id (books d)).
Proof.
  destruct body as [id|]; [|left; split; [discriminate | reflexivity]].
  destruct (string_dec id "") as [->|Hid];
    [left; split; [discriminate | reflexivity]|].
  rewrite (returnBook_eq id d Hid), getBookById_eq. cbn [fst].
  destruct (next_outcome d); [left; split; [discriminate | reflexivity]|].
  destruct (where_id id (books d)) as [r|] eqn:Hr;
    [|left; split; [discriminate | reflexivity]].
  unfold Scan. destruct (col_quantity r) as [z|x] eqn:Hq;
    [|left; split; [discriminate | reflexivity]].
  destruct (next_outcome (tick d));
    [left; split; [discriminate | reflexivity]|].
  right. split; [reflexivity|]. now exists id, r, z.
Qed.

Lemma serve_keeps_unique (q : request) (d : sqlDB) :
  unique_ids (books d) -> unique_ids (books (snd (serve q d))).
Proof.
  intros Huniq. destruct q as [body|id|body|body]; cbn [serve].
  - destruct (createBook_cases body d) as [[_ ->]|[_ [b [_ [Hnone ->]]]]];
      [exact Huniq | now apply insert_unique].
  - now rewrite getBook_eq.
  - destruct (checkoutBook_cases body d)
      as [[_ ->]|[_ [id [r [z [_ [_ [_ [_ [_ ->]]]]]]]]]]; [exact Huniq|].
    unfold unique_ids. now rewrite update_keeps_ids.
  - destruct (returnBook_cases body d)
      as [[_ ->]|[_ [id [r [z [_ [_ [_ [_ ->]]]]]]]]]; [exact Huniq|].
    unfold unique_ids. now rewrite update_keeps_ids.
Qed.

Lemma run_keeps_unique (qs : list request) :
  forall d, unique_ids (books d) -> unique_ids (books (run qs d)).
Proof.
  induction qs as [|q qs IH]; intros d Hd; cbn [run]; [exact Hd|].
  apply IH. now apply serve_keeps_unique.
Qed.

Lemma reachable_unique (qs : list request) (schedule : list (option string)) :
  unique_ids (books (run qs (initDB schedule))).
Proof.
  apply run_keeps_unique. constructor.
Qed.

(** Under the primary key every row is the one found under its id. *)
Lemma unique_lookup (t : list row) (r : row) :
  unique_ids t -> In r t -> where_id (col_id r) t = Some r.
Proof.
  intros Huniq Hin.
  destruct (where_id (col_id r) t) as [r'|] eqn:Hr'.
  - f_equal. symmetry.
    now apply (unique_row (col_id r) t r' r Huniq Hr' Hin).
  - apply where_id_None in Hr'. exfalso. apply Hr'. now apply in_map.
Qed.

(** X5.  The primary key holds in every state the server can reach, whatever
    the requests and whatever fails: no two rows share an id, so every stored
    row is the one a lookup of its id finds. *)
Theorem primary_key_holds
    (qs : list request) (schedule : list (option string)) :
  unique_ids (books (run qs (initDB schedule))) /\
  (forall r, In r (books (run qs (initDB schedule))) ->
             where_id (col_id r) (books (run qs (initDB schedule))) = Some r).
Proof.
  split; [apply reachable_unique|].
  intros r. apply unique_lookup, reachable_unique.
Qed.

(** X6.  No failure leaves a trace in the table: a request that is not
    answered 200 or 201 leaves every row as it was, and so does every
    [GET /books/:id], whatever it answers. *)
Theorem failed_request_changes_nothing (q : request) (d : sqlDB) :
  (status (fst (serve q d)) <> http.StatusOK ->
   status (fst (serve q d)) <> http.StatusCreated ->
   books (snd (serve q d)) = books d) /\
  (forall id, q = GET_books_id id -> books (snd (serve q d)) = books d).
Proof.
  split.
  - intros H200 H201. destruct q as [body|id|body|body]; cbn [serve] in *.
    + destruct (createBook_cases body d) as [[_ H]|[H _]];
        [exact H | contradiction].
    + now rewrite getBook_eq.
    + destruct (checkoutBook_cases body d) as [[_ H]|[H _]];
        [exact H | contradiction].
    + destruct (returnBook_cases body d) as [[_ H]|[H _]];
        [exact H | contradiction].
  - intros id ->. cbn [serve]. now rewrite getBook_eq.
Qed.

Lemma update_keeps_identity (delta : Z) (id : string) (t : list row) :
  map identity (update_where_id delta id t) = map identity t.
Proof.
  unfold update_where_id. rewrite map_map. apply map_ext.
  intros x. now destruct (String.eqb (col_id x) id).
Qed.

Lemma serve_appends (q : request) (d : sqlDB) :
  exists rest,
    map identity (books (snd (serve q d))) =
      (map identity (books d) ++ rest)%list /\
    (List.length rest <= 1)%nat.
Proof.
  assert (Hsame : forall t t' : list row,
             map identity t' = map identity t ->
             exists rest,
               map identity t' = (map identity t ++ rest)%list /\
               (List.length rest <= 1)%nat).
  { intros t t' H. exists []. rewrite app_nil_r.
    split; [exact H | cbn; lia]. }
  destruct q as [body|id|body|body]; cbn [serve].
  - destruct (createBook_cases body d) as [[_ ->]|[_ [b [_ [_ ->]]]]];
      [now apply Hsame|].
    exists [identity (row_of_book b)]. rewrite map_app.
    split; [reflexivity | cbn; lia].
  - apply Hsame. now rewrite getBook_eq.
  - apply Hsame.
    destruct (checkoutBook_cases body d)
      as [[_ ->]|[_ [id [r [z [_ [_ [_ [_ [_ ->]]]]]]]]]]; [reflexivity|].
    apply update_keeps_identity.
  - apply Hsame.
    destruct (returnBook_cases body d)
      as [[_ ->]|[_ [id [r [z [_ [_ [_ [_ ->]]]]]]]]]; [reflexivity|].
    apply update_keeps_identity.
Qed.

(** X7.  Nothing is ever deleted, renamed or reordered: after any sequence of
    requests the ids, titles and authors of the rows that were there are
    still there, in the same places, followed by at most one new row per
    request. *)
Theorem rows_are_never_removed (qs : list request) (d : sqlDB) :
  exists rest,
    map identity (books (run qs d)) = (map identity (books d) ++ rest)%list /\
    (List.length rest <= List.length qs)%nat.
Proof.
  revert d. induction qs as [|q qs IH]; intros d; cbn [run].
  - exists []. rewrite app_nil_r. split; [reflexivity | cbn; lia].
  - destruct (serve_appends q d) as [r1 [H1 L1]].
    destruct (IH (snd (serve q d))) as [r2 [H2 L2]].
    exists (r1 ++ r2)%list. rewrite H2, H1, <- app_assoc.
    split; [reflexivity|]. rewrite length_app. cbn [List.length]. lia.
Qed.

(** X8.  A request about one id leaves what is stored under every other id
    alone: creating, checking out or returning a book never changes the row
    found under a different id. *)
Theorem other_ids_untouched (d : sqlDB) (id' : string) :
  (forall b, ID b <> id' ->
     where_id id' (books (snd (createBook (Some b) d))) =
     where_id id' (books d)) /\
  (forall id, id <> id' ->
     where_id id' (books (snd (checkoutBook (Some id) d))) =
     where_id id' (books d) /\
     where_id id' (books (snd (returnBook (Some id) d))) =
     where_id id' (books d)).
Proof.
  split.
  - intros b Hne.
    destruct (createBook_cases (Some b) d) as [[_ ->]|[_ [b' [Hb [_ ->]]]]];
      [reflexivity|].
    injection Hb as <-. rewrite where_id_app.
    destruct (where_id id' (books d)); [reflexivity|].
    cbn [col_id row_of_book].
    now destruct (String.eqb_spec (ID b) id').
  - intros id Hne. split.
    + destruct (checkoutBook_cases (Some id) d)
        as [[_ ->]|[_ [i [r [z [Hi [_ [_ [_ [_ ->]]]]]]]]]]; [reflexivity|].
      injection Hi as <-. apply where_id_update_other. congruence.
    + destruct (returnBook_cases (Some id) d)
        as [[_ ->]|[_ [i [r [z [Hi [_ [_ [_ ->]]]]]]]]]; [reflexivity|].
      injection Hi as <-. apply where_id_update_other. congruence.
Qed.

(** ** Checkout and return, composed *)

Lemma calls_ok_nil (n : nat) (d : sqlDB) : faults d = [] -> calls_ok n d.
Proof.
  unfold calls_ok. intros ->. now destruct n.
Qed.

Lemma checkoutBook_ok (id : string) (d : sqlDB) (r : row) (n : Z) :
  id <> "" -> calls_ok 2 d ->
  where_id id (books d) = Some r -> col_quantity r = Integer n -> 0 < n ->
  checkoutBook (Some id) d =
    (IndentedJSON http.StatusOK (J_book (book_of_row r n)),
     {| books := update_where_id (-1) id (books d);
        faults := tl (tl (faults d)) |}).
Proof.
  intros Hid Hok Hr Hq Hn. rewrite (checkoutBook_eq id d Hid).
  rewrite (getBookById_present id d r n (calls_ok_fewer 1 d Hok) Hr Hq).
  cbn [fst Quantity book_of_row].
  destruct (Z.leb_spec n 0) as [Hle|_]; [lia|].
  now rewrite (calls_ok_next 0 (tick d) (calls_ok_tick 1 d Hok)).
Qed.

Lemma returnBook_ok (id : string) (d : sqlDB) (r : row) (n : Z) :
  id <> "" -> calls_ok 2 d ->
  where_id id (books d) = Some r -> col_quantity r = Integer n ->
  returnBook (Some id) d =
    (IndentedJSON http.StatusOK (J_book (book_of_row r n)),
     {| books := update_where_id 1 id (books d);
        faults := tl (tl (faults d)) |}).
Proof.
  intros Hid Hok Hr Hq. rewrite (returnBook_eq id d Hid).
  rewrite (getBookById_present id d r n (calls_ok_fewer 1 d Hok) Hr Hq).
  cbn [fst].
  now rewrite (calls_ok_next 0 (tick d) (calls_ok_tick 1 d Hok)).
Qed.

Lemma set_quantity_same (r : row) (v : sqlite_num) :
  col_quantity r = v -> set_quantity r v = r.
Proof.
  destruct r. cbn. now intros ->.
Qed.

Lemma set_quantity_twice (r : row) (v w : sqlite_num) :
  set_quantity (set_quantity r v) w = set_quantity r w.
Proof.
  reflexivity.
Qed.

(** Two updates of the same id that cancel on the row found there give the
    table back, under the primary key. *)
Lemma update_round_trip
    (id : string) (t : list row) (r : row) (n d1 d2 : Z) :
  unique_ids t -> where_id id t = Some r -> col_quantity r = Integer n ->
  sqlite_add (sqlite_add (Integer n) d1) d2 = Integer n ->
  update_where_id d2 id (update_where_id d1 id t) = t.
Proof.
  intros Huniq Hr Hq Hback. unfold update_where_id. rewrite map_map.
  transitivity (map (fun x : row => x) t); [|apply map_id].
  apply map_ext_in. intros x Hx.
  destruct (String.eqb_spec (col_id x) id) as [E|E].
  - cbn [col_id set_quantity]. apply String.eqb_eq in E as E'. rewrite E'.
    rewrite (unique_row id t r x Huniq Hr Hx E).
    cbn [col_quantity set_quantity col_id col_title col_author].
    rewrite Hq, Hback. now apply (set_quantity_same r (Integer n)).
  - apply String.eqb_neq in E. now rewrite E.
Qed.

Lemma where_id_found (id : string) (t : list row) (r : row) :
  where_id id t = Some r -> In r t.
Proof.
  unfold where_id. intros H. now apply find_some in H.
Qed.

Lemma stored_in_range (t : list row) (r : row) (n : Z) :
  all_stored_ok t -> In r t -> col_quantity r = Integer n -> int64 n.
Proof.
  unfold all_stored_ok. rewrite Forall_forall. intros Hall Hin Hq.
  specialize (Hall r Hin). now rewrite Hq in Hall.
Qed.

Lemma checkout_then_return (id : string) (d : sqlDB) (r : row) (n : Z) :
  unique_ids (books d) -> id <> "" -> calls_ok 4 d ->
  where_id id (books d) = Some r -> col_quantity r = Integer n ->
  0 < n <= max_int64 ->
  status (fst (checkoutBook (Some id) d)) = http.StatusOK /\
  status (fst (returnBook (Some id) (snd (checkoutBook (Some id) d)))) =
    http.StatusOK /\
  books (snd (returnBook (Some id) (snd (checkoutBook (Some id) d)))) =
    books d.
Proof.
  intros Huniq Hid Hok Hr Hq [Hpos Hmax].
  pose proof (calls_ok_fewer 2 d (calls_ok_fewer 3 d Hok)) as Hok2.
  rewrite (checkoutBook_ok id d r n Hid Hok2 Hr Hq Hpos). cbn [fst snd].
  split; [reflexivity|].
  set (d1 := {| books := update_where_id (-1) id (books d);
                faults := tl (tl (faults d)) |}).
  assert (Hok1 : calls_ok 2 d1).
  { change (calls_ok 2 (tick (tick d))).
    apply (calls_ok_tick 2), (calls_ok_tick 3), Hok. }
  assert (Hr1 : where_id id (books d1) =
                Some (set_quantity r (Integer (n - 1)))).
  { unfold d1. cbn [books]. rewrite where_id_update, Hr. cbn [option_map].
    now rewrite Hq, (sqlite_sub_positive n Hpos). }
  rewrite (returnBook_ok id d1 _ (n - 1) Hid Hok1 Hr1 eq_refl).
  cbn [fst snd books]. split; [reflexivity|].
  apply (update_round_trip id (books d) r n (-1) 1 Huniq Hr Hq).
  rewrite (sqlite_sub_positive n Hpos), sqlite_add_below_max by lia.
  f_equal. lia.
Qed.

Lemma return_then_checkout (id : string) (d : sqlDB) (r : row) (n : Z) :
  unique_ids (books d) -> id <> "" -> calls_ok 4 d ->
  where_id id (books d) = Some r -> col_quantity r = Integer n ->
  0 <= n < max_int64 ->
  status (fst (returnBook (Some id) d)) = http.StatusOK /\
  status (fst (checkoutBook (Some id) (snd (returnBook (Some id) d)))) =
    http.StatusOK /\
  books (snd (checkoutBook (Some id) (snd (returnBook (Some id) d)))) =
    books d.
Proof.
  intros Huniq Hid Hok Hr Hq [Hpos Hmax].
  pose proof (calls_ok_fewer 2 d (calls_ok_fewer 3 d Hok)) as Hok2.
  rewrite (returnBook_ok id d r n Hid Hok2 Hr Hq). cbn [fst snd].
  split; [reflexivity|].
  set (d1 := {| books := update_where_id 1 id (books d);
                faults := tl (tl (faults d)) |}).
  assert (Hok1 : calls_ok 2 d1).
  { change (calls_ok 2 (tick (tick d))).
    apply (calls_ok_tick 2), (calls_ok_tick 3), Hok. }
  assert (Hr1 : where_id id (books d1) =
                Some (set_quantity r (Integer (n + 1)))).
  { unfold d1. cbn [books]. rewrite where_id_update, Hr. cbn [option_map].
    now rewrite Hq, (sqlite_add_below_max n Hmax). }
  assert (Hn1 : 0 < n + 1) by lia.
  rewrite (checkoutBook_ok id d1 _ (n + 1) Hid Hok1 Hr1 eq_refl Hn1).
  cbn [fst snd books]. split; [reflexivity|].
  apply (update_round_trip id (books d) r n 1 (-1) Huniq Hr Hq).
  rewrite (sqlite_add_below_max n Hmax), (sqlite_sub_positive (n + 1) Hn1).
  f_equal. lia.
Qed.

(** X9.  Checkout and return undo each other.  In any state the server
    reaches through requests that decode, for a book kept under a non-empty
    id with quantity [n], when the four database calls go through: if
    [n > 0], a checkout followed by a return are both answered 200 and leave
    the table exactly as it was; and if [0 <= n < 2^63 - 1], so do a return
    followed by a checkout. *)
Theorem checkout_and_return_cancel
    (qs : list request) (schedule : list (option string))
    (id : string) (r : row) (n : Z) :
  Forall well_typed qs -> id <> "" ->
  calls_ok 4 (run qs (initDB schedule)) ->
  where_id id (books (run qs (initDB schedule))) = Some r ->
  col_quantity r = Integer n ->
  (0 < n ->
   status (fst (checkoutBook (Some id) (run qs (initDB schedule)))) =
     http.StatusOK /\
   status (fst (returnBook (Some id)
                  (snd (checkoutBook (Some id) (run qs (initDB schedule))))))
     = http.StatusOK /\
   books (snd (returnBook (Some id)
                 (snd (checkoutBook (Some id) (run qs (initDB schedule))))))
     = books (run qs (initDB schedule))) /\
  (0 <= n < max_int64 ->
   status (fst (returnBook (Some id) (run qs (initDB schedule)))) =
     http.StatusOK /\
   status (fst (checkoutBook (Some id)
                  (snd (returnBook (Some id) (run qs (initDB schedule))))))
     = http.StatusOK /\
   books (snd (checkoutBook (Some id)
                 (snd (returnBook (Some id) (run qs (initDB schedule))))))
     = books (run qs (initDB schedule))).
Proof.
  intros Hqs Hid Hok Hr Hq.
  pose proof (reachable_unique qs schedule) as Huniq.
  pose proof (stored_in_range _ r n (run_stored_ok qs schedule Hqs)
                (where_id_found id _ r Hr) Hq) as [_ Hmax].
  split.
  - intros Hpos. apply (checkout_then_return id _ r n); auto.
  - intros Hn. apply (return_then_checkout id _ r n); auto.
Qed.

Lemma repeated_checkouts (id : string) (k : nat) :
  forall (d : sqlDB) (r : row) (n : Z),
    id <> "" -> faults d = [] ->
    where_id id (books d) = Some r -> col_quantity r = Integer n ->
    Z.of_nat k <= n ->
    where_id id
      (books (run (repeat (PATCH_books_checkout (Some id)) k) d)) =
      Some (set_quantity r (Integer (n - Z.of_nat k))) /\
    faults (run (repeat (PATCH_books_checkout (Some id)) k) d) = [].
Proof.
  induction k as [|k IH]; intros d r n Hid Hf Hr Hq Hk.
  - cbn [repeat run]. split; [|exact Hf].
    rewrite Hr. f_equal. symmetry. apply set_quantity_same.
    rewrite Hq. f_equal. cbn. lia.
  - cbn [repeat run serve].
    assert (Hpos : 0 < n) by lia.
    rewrite (checkoutBook_ok id d r n Hid (calls_ok_nil 2 d Hf) Hr Hq Hpos).
    cbn [snd].
    set (d1 := {| books := update_where_id (-1) id (books d);
                  faults := tl (tl (faults d)) |}).
    assert (Hf1 : faults d1 = []) by (unfold d1; cbn; now rewrite Hf).
    assert (Hr1 : where_id id (books d1) =
                  Some (set_quantity r (Integer (n - 1)))).
    { unfold d1. cbn [books]. rewrite where_id_update, Hr. cbn [option_map].
      now rewrite Hq, (sqlite_sub_positive n Hpos). }
    destruct (IH d1 _ (n - 1) Hid Hf1 Hr1 eq_refl) as [H1 H2]; [lia|].
    split; [|exact H2]. rewrite H1, set_quantity_twice.
    do 3 f_equal. lia.
Qed.

(** X10.  A book can be checked out exactly as many times as its quantity
    says.  For a book kept under a non-empty id with quantity [n], with the
    storage working: after [k <= n] checkouts the quantity stored is [n - k];
    the next checkout is answered 200 as long as [k < n], and once [k = n]
    it is refused with "Livro não disponível". *)
Theorem checkout_as_often_as_quantity
    (id : string) (d : sqlDB) (r : row) (n : Z) (k : nat) :
  id <> "" -> faults d = [] ->
  where_id id (books d) = Some r -> col_quantity r = Integer n ->
  Z.of_nat k <= n ->
  where_id id (books (run (repeat (PATCH_books_checkout (Some id)) k) d)) =
    Some (set_quantity r (Integer (n - Z.of_nat k))) /\
  (Z.of_nat k < n ->
   status (fst (checkoutBook (Some id)
                  (run (repeat (PATCH_books_checkout (Some id)) k) d))) =
     http.StatusOK) /\
  (Z.of_nat k = n ->
   fst (checkoutBook (Some id)
          (run (repeat (PATCH_books_checkout (Some id)) k) d)) =
     livro_nao_disponivel).
Proof.
  intros Hid Hf Hr Hq Hk.
  destruct (repeated_checkouts id k d r n Hid Hf Hr Hq Hk) as [Hrk Hfk].
  split; [exact Hrk|]. split.
  - intros Hlt.
    rewrite (checkoutBook_ok id _ _ (n - Z.of_nat k) Hid
               (calls_ok_nil 2 _ Hfk) Hrk eq_refl); [reflexivity | lia].
  - intros Heq. rewrite (checkoutBook_eq id _ Hid).
    rewrite (getBookById_present id _ _ (n - Z.of_nat k)
               (calls_ok_nil 1 _ Hfk) Hrk eq_refl).
    cbn [fst Quantity book_of_row].
    destruct (Z.leb_spec (n - Z.of_nat k) 0) as [_|Hlt]; [reflexivity | lia].
Qed.

(** ** Lookups that fail *)

(** X11.  A lookup whose database call fails is answered as if the book did
    not exist: the [GET] route, checkout and return (for a non-empty id) all
    answer 404 "Livro não encontrado", whether the id is in the table or
    not, and the table is unchanged. *)
Theorem failed_lookup_is_answered_404 (id : string) (d : sqlDB) (msg : string) :
  next_outcome d = Some msg ->
  getBook id d = (livro_nao_encontrado, tick d) /\
  (id <> "" ->
   checkoutBook (Some id) d = (livro_nao_encontrado, tick d) /\
   returnBook (Some id) d = (livro_nao_encontrado, tick d)).
Proof.
  intros Hmsg.
  assert (Hget : fst (getBookById id d) = Err (DriverError msg))
    by now rewrite getBookById_eq, Hmsg.
  split.
  - now rewrite getBook_eq, Hget.
  - intros Hid. rewrite (checkoutBook_eq id d Hid), (returnBook_eq id d Hid).
    now rewrite Hget.
Qed.

(** X12.  Creating a book under a non-empty id that is already in the table
    is refused with 409 "ID do livro já existe" as soon as the existence
    check's database call goes through; the row stored under that id and the
    rest of the table are unchanged. *)
Theorem create_taken_id_conflict (b : book) (d : sqlDB) (r : row) :
  ID b <> "" -> calls_ok 1 d -> where_id (ID b) (books d) = Some r ->
  fst (createBook (Some b) d) = id_ja_existe /\
  books (snd (createBook (Some b) d)) = books d /\
  where_id (ID b) (books (snd (createBook (Some b) d))) = Some r.
Proof.
  intros Hid Hok Hr. rewrite createBook_eq.
  rewrite (calls_ok_next 0 d Hok), Hr.
  apply String.eqb_neq in Hid. rewrite Hid. cbn [fst snd tick books].
  now repeat split.
Qed.

Lemma Forall2_In_right
    {A B : Type} (R : A -> B -> Prop) (l : list A) (l' : list B) (y : B) :
  Forall2 R l l' -> In y l' -> exists x, In x l /\ R x y.
Proof.
  induction 1 as [|x y' l l' Hxy _ IH]; intros Hin; [contradiction|].
  destruct Hin as [->|Hin].
  - exists x. split; [now left | exact Hxy].
  - destruct (IH Hin) as [x' [Hx' HR]]. exists x'.
    split; [now right | exact HR].
Qed.

Lemma In_firstn {A : Type} (k : nat) (l : list A) (x : A) :
  In x (firstn k l) -> In x l.
Proof.
  intros H. rewrite <- (firstn_skipn k l). apply in_or_app. now left.
Qed.

Lemma scans_to_id (r : row) (b : book) : scans_to r b -> ID b = col_id r.
Proof.
  unfold scans_to, Scan. destruct (col_quantity r); [|discriminate].
  now intros [= <-].
Qed.

(** X13.  The listing and the lookup agree: in any state the server reaches,
    every book that [getBooks] lists with status 200 is returned unchanged
    by the lookup of its id that follows, when that database call goes
    through. *)
Theorem listed_book_is_found
    (qs : list request) (schedule : list (option string))
    (bs : list book) (b : book) :
  fst (getBooks (run qs (initDB schedule))) =
    {| books_status := http.StatusOK; books_payload := L_books bs |} ->
  In b bs ->
  calls_ok 1 (snd (getBooks (run qs (initDB schedule)))) ->
  fst (getBookById (ID b) (snd (getBooks (run qs (initDB schedule))))) = Ok b.
Proof.
  intros Hlist Hin Hok.
  pose proof (reachable_unique qs schedule) as Huniq.
  set (d := run qs (initDB schedule)) in *.
  destruct (getBooks_answers d) as [[k [bs' [H1 H2]]]|[H|H]];
    [|rewrite H in Hlist; discriminate | rewrite H in Hlist; discriminate].
  rewrite H1 in Hlist. injection Hlist as <-.
  destruct (Forall2_In_right _ _ _ b H2 Hin) as [r [Hr Hb]].
  apply In_firstn in Hr.
  rewrite getBookById_eq, (calls_ok_next 0 _ Hok), getBooks_reads.
  rewrite (scans_to_id r b Hb), (unique_lookup _ r Huniq Hr).
  exact Hb.
Qed.

(** ** A quantity that overflows *)

Lemma serve_keeps_real
    (id : string) (q : request) (d : sqlDB) (r : row) (x : Z) :
  where_id id (books d) = Some r -> col_quantity r = Real x ->
  where_id id (books (snd (serve q d))) = Some r.
Proof.
  intros Hr Hq.
  assert (Hupd : forall delta i,
             where_id id (update_where_id delta i (books d)) = Some r).
  { intros delta i. destruct (string_dec id i) as [<-|Hne].
    - rewrite where_id_update, Hr. cbn [option_map]. rewrite Hq.
      cbn [sqlite_add]. f_equal. now apply set_quantity_same.
    - now rewrite where_id_update_other. }
  destruct q as [body|i|body|body]; cbn [serve].
  - destruct (createBook_cases body d) as [[_ ->]|[_ [b [_ [_ ->]]]]];
      [exact Hr|]. now rewrite where_id_app, Hr.
  - now rewrite getBook_eq.
  - destruct (checkoutBook_cases body d)
      as [[_ ->]|[_ [i [r' [z [_ [_ [_ [_ [_ ->]]]]]]]]]];
      [exact Hr | apply Hupd].
  - destruct (returnBook_cases body d)
      as [[_ ->]|[_ [i [r' [z [_ [_ [_ [_ ->]]]]]]]]];
      [exact Hr | apply Hupd].
Qed.

Lemma run_keeps_real (id : string) (r : row) (x : Z) (qs : list request) :
  forall d, where_id id (books d) = Some r -> col_quantity r = Real x ->
            where_id id (books (run qs d)) = Some r.
Proof.
  induction qs as [|q qs IH]; intros d Hr Hq; cbn [run]; [exact Hr|].
  apply IH; [|exact Hq]. now apply (serve_keeps_real id q d r x).
Qed.

(** X14.  Returning a book whose quantity is the largest [int], [2^63 - 1],
    is answered 200, and the book is lost to the API from then on: the
    quantity stored is no longer an INTEGER, and after any further requests
    the lookup of that id still fails, so that the [GET] route, checkout and
    return all answer 404. *)
Theorem return_at_max_int_loses_book
    (id : string) (d : sqlDB) (r : row) (qs : list request) :
  id <> "" -> calls_ok 2 d ->
  where_id id (books d) = Some r -> col_quantity r = Integer max_int64 ->
  status (fst (returnBook (Some id) d)) = http.StatusOK /\
  where_id id (books (run qs (snd (returnBook (Some id) d)))) =
    Some (set_quantity r (Real (max_int64 + 1))) /\
  (exists e,
     fst (getBookById id (run qs (snd (returnBook (Some id) d)))) = Err e) /\
  fst (getBook id (run qs (snd (returnBook (Some id) d)))) =
    livro_nao_encontrado /\
  fst (checkoutBook (Some id) (run qs (snd (returnBook (Some id) d)))) =
    livro_nao_encontrado /\
  fst (returnBook (Some id) (run qs (snd (returnBook (Some id) d)))) =
    livro_nao_encontrado.
Proof.
  intros Hid Hok Hr Hq.
  rewrite (returnBook_ok id d r max_int64 Hid Hok Hr Hq). cbn [fst snd].
  split; [reflexivity|].
  set (d1 := {| books := update_where_id 1 id (books d);
                faults := tl (tl (faults d)) |}).
  assert (Hr1 : where_id id (books d1) =
                Some (set_quantity r (Real (max_int64 + 1)))).
  { unfold d1. cbn [books]. rewrite where_id_update, Hr. cbn [option_map].
    now rewrite Hq. }
  pose proof (run_keeps_real id _ (max_int64 + 1) qs d1 Hr1 eq_refl) as Hrun.
  split; [exact Hrun|].
  destruct (real_quantity_unreadable id (run qs d1) _ (max_int64 + 1)
              Hid Hrun eq_refl) as [[e He] [Hout Hback]].
  split; [now exists e|]. rewrite getBook_eq, He, Hout, Hback.
  now repeat split.
Qed.

(** ** Creation seen by the listing, and repeated returns *)

Lemma Scan_row_of_book (b : book) : Scan (row_of_book b) = Ok b.
Proof.
  now destruct b.
Qed.

(** X15.  A book that [createBook] has just created (201) is the last one of
    the listing: when every row that was there is readable and the calls of
    [getBooks] go through, the listing is the books of the old rows, in
    order, followed by the new book as it was supplied. *)
Theorem created_book_is_listed_last (b : book) (d : sqlDB) :
  status (fst (createBook (Some b) d)) = http.StatusCreated ->
  Forall readable (books d) ->
  calls_ok (S (List.length (books (snd (createBook (Some b) d)))))
    (snd (createBook (Some b) d)) ->
  exists bs,
    fst (getBooks (snd (createBook (Some b) d))) =
      {| books_status := http.StatusOK;
         books_payload := L_books (bs ++ [b]) |} /\
    Forall2 scans_to (books d) bs.
Proof.
  intros H201 Hall Hok.
  destruct (createBook_cases (Some b) d) as [[H _]|[_ [b' [Hb [_ Ht]]]]];
    [contradiction|].
  injection Hb as <-.
  set (d' := snd (createBook (Some b) d)) in *.
  assert (Hall' : Forall readable (books d')).
  { rewrite Ht. apply Forall_app. split; [exact Hall|].
    constructor; [|constructor]. now exists (Quantity b). }
  rewrite getBooks_eq, (calls_ok_next _ d' Hok).
  destruct (rows_loop_all (books d') [] (tick d') (calls_ok_tick _ d' Hok)
              Hall') as [bs' [H1 H2]].
  rewrite Ht in H2. apply Forall2_app_inv_l in H2.
  destruct H2 as [bs [last [Hold [Hnew ->]]]].
  inversion Hnew as [|? b' ? ? Hscan Hnil]; subst.
  inversion Hnil; subst.
  unfold scans_to in Hscan. rewrite Scan_row_of_book in Hscan.
  injection Hscan as <-.
  exists bs. split; [exact H1 | exact Hold].
Qed.

Lemma repeated_returns (id : string) (k : nat) :
  forall (d : sqlDB) (r : row) (n : Z),
    id <> "" -> faults d = [] ->
    where_id id (books d) = Some r -> col_quantity r = Integer n ->
    n + Z.of_nat k <= max_int64 ->
    where_id id
      (books (run (repeat (PATCH_books_return (Some id)) k) d)) =
      Some (set_quantity r (Integer (n + Z.of_nat k))) /\
    faults (run (repeat (PATCH_books_return (Some id)) k) d) = [].
Proof.
  induction k as [|k IH]; intros d r n Hid Hf Hr Hq Hk.
  - cbn [repeat run]. split; [|exact Hf].
    rewrite Hr. f_equal. symmetry. apply set_quantity_same.
    rewrite Hq. f_equal. cbn. lia.
  - cbn [repeat run serve].
    rewrite (returnBook_ok id d r n Hid (calls_ok_nil 2 d Hf) Hr Hq).
    cbn [snd].
    set (d1 := {| books := update_where_id 1 id (books d);
                  faults := tl (tl (faults d)) |}).
    assert (Hf1 : faults d1 = []) by (unfold d1; cbn; now rewrite Hf).
    assert (Hr1 : where_id id (books d1) =
                  Some (set_quantity r (Integer (n + 1)))).
    { unfold d1. cbn [books]. rewrite where_id_update, Hr. cbn [option_map].
      rewrite Hq, sqlite_add_below_max; [reflexivity | lia]. }
    destruct (IH d1 _ (n + 1) Hid Hf1 Hr1 eq_refl) as [H1 H2]; [lia|].
    split; [|exact H2]. rewrite H1, set_quantity_twice.
    do 3 f_equal. lia.
Qed.

(** X16.  Returns are not tied to checkouts: a book kept under a non-empty id
    can be returned any number of times, whether or not it was ever checked
    out.  With the storage working, after [k] returns of a book of quantity
    [n] the quantity stored is [n + k], as long as that does not exceed
    [2^63 - 1], and the next return is answered 200. *)
Theorem return_as_often_as_wanted
    (id : string) (d : sqlDB) (r : row) (n : Z) (k : nat) :
  id <> "" -> faults d = [] ->
  where_id id (books d) = Some r -> col_quantity r = Integer n ->
  n + Z.of_nat k <= max_int64 ->
  where_id id (books (run (repeat (PATCH_books_return (Some id)) k) d)) =
    Some (set_quantity r (Integer (n + Z.of_nat k))) /\
  status (fst (returnBook (Some id)
                 (run (repeat (PATCH_books_return (Some id)) k) d))) =
    http.StatusOK.
Proof.
  intros Hid Hf Hr Hq Hk.
  destruct (repeated_returns id k d r n Hid Hf Hr Hq Hk) as [Hrk Hfk].
  split; [exact Hrk|].
  now rewrite (returnBook_ok id _ _ (n + Z.of_nat k) Hid
                 (calls_ok_nil 2 _ Hfk) Hrk eq_refl).
Qed.

(** ** The further theorems at concrete requests *)

Lemma getBooks_lists_every_book_witness :
  let b1 := {| ID := "b1"; Title := "T"; Author := "A"; Quantity := 2 |} in
  let b2 := {| ID := "b2"; Title := "U"; Author := "B"; Quantity := 0 |} in
  let d := run [POST_books (Some b1); POST_books (Some b2)] (initDB []) in
  fst (getBooks d) =
    {| books_status := http.StatusOK; books_payload := L_books [b1; b2] |}.
Proof.
  cbv zeta.
  destruct (getBooks_lists_every_book
              (run [POST_books (Some (mkBook "b1" "T" "A" 2));
                    POST_books (Some (mkBook "b2" "U" "B" 0))] (initDB [])))
    as [bs [H1 [H2 _]]].
  - cbn. tauto.
  - repeat constructor; eexists; reflexivity.
  - rewrite H1. do 2 f_equal. clear H1.
    assert (Heta : forall (r : row) (b : book) (z : Z),
               ID b = col_id r /\ Title b = col_title r /\
               Author b = col_author r /\
               col_quantity r = Integer (Quantity b) ->
               col_quantity r = Integer z ->
               b = mkBook (col_id r) (col_title r) (col_author r) z).
    { intros r [i t a q] z [Hi [Ht [Ha Hq]]] Hz. cbn in *.
      rewrite Hz in Hq. injection Hq as ->. now subst. }
    inversion H2 as [|r1 x1 t1 l1 Hx1 Ht1]; subst.
    inversion Ht1 as [|r2 x2 t2 l2 Hx2 Ht2]; subst.
    inversion Ht2; subst.
    now rewrite (Heta _ x1 2 Hx1 eq_refl), (Heta _ x2 0 Hx2 eq_refl).
Defined.

Lemma getBooks_truncates_silently_witness :
  let b1 := {| ID := "b1"; Title := "T"; Author := "A"; Quantity := 2 |} in
  let b2 := {| ID := "b2"; Title := "U"; Author := "B"; Quantity := 0 |} in
  let d := run [POST_books (Some b1); POST_books (Some b2)]
             (initDB [None; None; None; None;
                      None; None; Some "disk I/O error"]) in
  exists bs,
    fst (getBooks d) =
      {| books_status := http.StatusOK; books_payload := L_books bs |} /\
    Forall2 scans_to (firstn 1 (books d)) bs /\
    (List.length bs < List.length (books d))%nat.
Proof.
  cbv zeta. apply (getBooks_truncates_silently _ 1 "disk I/O error").
  - cbn. lia.
  - repeat constructor. eexists; reflexivity.
  - cbn. tauto.
  - reflexivity.
Defined.

Lemma getBooks_fails_on_unreadable_row_witness :
  let full := {| ID := "b1"; Title := "T"; Author := "A";
                 Quantity := max_int64 |} in
  let d := run [POST_books (Some full); PATCH_books_return (Some "b1")]
             (initDB []) in
  fst (getBooks d) =
    {| books_status := http.StatusInternalServerError;
       books_payload := L_message "Erro ao ler os dados dos livros" |}.
Proof.
  cbv zeta. apply getBooks_fails_on_unreadable_row.
  - cbn. tauto.
  - constructor. eexists. reflexivity.
Defined.

Lemma checkout_and_return_cancel_witness :
  let b1 := {| ID := "b1"; Title := "T"; Author := "A"; Quantity := 2 |} in
  let d := run [POST_books (Some b1)] (initDB []) in
  books (snd (returnBook (Some "b1") (snd (checkoutBook (Some "b1") d)))) =
    books d.
Proof.
  cbv zeta.
  assert (Hqs : Forall well_typed
                  [POST_books (Some (mkBook "b1" "T" "A" 2))]).
  { repeat constructor; cbn; unfold min_int64, max_int64; lia. }
  assert (Hid : "b1" <> "") by discriminate.
  assert (Hpos : 0 < 2) by lia.
  exact (proj2 (proj2 (proj1 (checkout_and_return_cancel
                                [POST_books (Some (mkBook "b1" "T" "A" 2))]
                                [] "b1" (mkRow "b1" "T" "A" (Integer 2)) 2
                                Hqs Hid I eq_refl eq_refl) Hpos))).
Defined.

Lemma checkout_as_often_as_quantity_witness :
  let b1 := {| ID := "b1"; Title := "T"; Author := "A"; Quantity := 2 |} in
  let d := run [POST_books (Some b1)] (initDB []) in
  let d2 := run (repeat (PATCH_books_checkout (Some "b1")) 2) d in
  where_id "b1" (books d2) = Some (mkRow "b1" "T" "A" (Integer 0)) /\
  fst (checkoutBook (Some "b1") d2) = livro_nao_disponivel.
Proof.
  cbv zeta.
  assert (Hid : "b1" <> "") by discriminate.
  assert (Hk : Z.of_nat 2 <= 2) by (cbn; lia).
  pose proof (checkout_as_often_as_quantity "b1"
                (run [POST_books (Some (mkBook "b1" "T" "A" 2))] (initDB []))
                (mkRow "b1" "T" "A" (Integer 2)) 2 2
                Hid eq_refl eq_refl eq_refl Hk) as [H1 [_ H3]].
  split; [exact H1 | exact (H3 eq_refl)].
Defined.

Lemma failed_lookup_is_answered_404_witness :
  let b1 := {| ID := "b1"; Title := "T"; Author := "A"; Quantity := 2 |} in
  let d := run [POST_books (Some b1)]
             (initDB [None; None; Some "database is locked"]) in
  where_id "b1" (books d) = Some (row_of_book b1) /\
  fst (getBook "b1" d) = livro_nao_encontrado /\
  fst (checkoutBook (Some "b1") d) = livro_nao_encontrado.
Proof.
  cbv zeta. split; [reflexivity|].
  pose proof (failed_lookup_is_answered_404 "b1"
                (run [POST_books (Some (mkBook "b1" "T" "A" 2))]
                   (initDB [None; None; Some "database is locked"]))
                "database is locked" eq_refl) as [Hget Hpatch].
  destruct Hpatch as [Hout _]; [discriminate|].
  split; [now rewrite Hget | now rewrite Hout].
Defined.

Lemma create_taken_id_conflict_witness :
  let b1 := {| ID := "b1"; Title := "T"; Author := "A"; Quantity := 2 |} in
  let again := {| ID := "b1"; Title := "U"; Author := "B"; Quantity := 5 |} in
  let d := run [POST_books (Some b1)] (initDB []) in
  fst (createBook (Some again) d) = id_ja_existe /\
  books (snd (createBook (Some again) d)) = books d /\
  where_id "b1" (books (snd (createBook (Some again) d))) =
    Some (row_of_book b1).
Proof.
  cbv zeta.
  assert (Hid : "b1" <> "") by discriminate.
  exact (create_taken_id_conflict (mkBook "b1" "U" "B" 5)
           (run [POST_books (Some (mkBook "b1" "T" "A" 2))] (initDB []))
           (mkRow "b1" "T" "A" (Integer 2)) Hid I eq_refl).
Defined.

Lemma listed_book_is_found_witness :
  let b1 := {| ID := "b1"; Title := "T"; Author := "A"; Quantity := 2 |} in
  let b2 := {| ID := "b2"; Title := "U"; Author := "B"; Quantity := 0 |} in
  let d := run [POST_books (Some b1); POST_books (Some b2)] (initDB []) in
  fst (getBooks d) =
    {| books_status := http.StatusOK; books_payload := L_books [b1; b2] |} /\
  fst (getBookById "b2" (snd (getBooks d))) = Ok b2.
Proof.
  cbv zeta. split; [reflexivity|].
  apply (listed_book_is_found
           [POST_books (Some (mkBook "b1" "T" "A" 2));
            POST_books (Some (mkBook "b2" "U" "B" 0))] []
           [mkBook "b1" "T" "A" 2; mkBook "b2" "U" "B" 0]
           (mkBook "b2" "U" "B" 0)).
  - reflexivity.
  - right. now left.
  - exact I.
Defined.

Lemma return_at_max_int_loses_book_witness :
  let full := {| ID := "b1"; Title := "T"; Author := "A";
                 Quantity := max_int64 |} in
  let d := run [POST_books (Some full)] (initDB []) in
  let later := [PATCH_books_return (Some "b1");
                PATCH_books_checkout (Some "b1")] in
  status (fst (returnBook (Some "b1") d)) = http.StatusOK /\
  fst (getBook "b1" (run later (snd (returnBook (Some "b1") d)))) =
    livro_nao_encontrado.
Proof.
  cbv zeta.
  assert (Hid : "b1" <> "") by discriminate.
  pose proof (return_at_max_int_loses_book "b1"
                (run [POST_books (Some (mkBook "b1" "T" "A" max_int64))]
                   (initDB []))
                (mkRow "b1" "T" "A" (Integer max_int64))
                [PATCH_books_return (Some "b1");
                 PATCH_books_checkout (Some "b1")]
                Hid I eq_refl eq_refl) as [H1 [_ [_ [H4 _]]]].
  split; [exact H1 | exact H4].
Defined.

Lemma created_book_is_listed_last_witness :
  let b1 := {| ID := "b1"; Title := "T"; Author := "A"; Quantity := 2 |} in
  let b2 := {| ID := "b2"; Title := "U"; Author := "B"; Quantity := 0 |} in
  let d := run [POST_books (Some b1)] (initDB []) in
  exists bs,
    fst (getBooks (snd (createBook (Some b2) d))) =
      {| books_status := http.StatusOK;
         books_payload := L_books (bs ++ [b2]) |} /\
    Forall2 scans_to (books d) bs.
Proof.
  cbv zeta. apply created_book_is_listed_last.
  - reflexivity.
  - repeat constructor. eexists; reflexivity.
  - cbn. tauto.
Defined.

Lemma return_as_often_as_wanted_witness :
  let b1 := {| ID := "b1"; Title := "T"; Author := "A"; Quantity := 0 |} in
  let d := run [POST_books (Some b1)] (initDB []) in
  where_id "b1"
    (books (run (repeat (PATCH_books_return (Some "b1")) 3) d)) =
    Some (mkRow "b1" "T" "A" (Integer 3)).
Proof.
  cbv zeta.
  assert (Hid : "b1" <> "") by discriminate.
  assert (Hk : 0 + Z.of_nat 3 <= max_int64)
    by (cbn; unfold max_int64; lia).
  exact (proj1 (return_as_often_as_wanted "b1"
                  (run [POST_books (Some (mkBook "b1" "T" "A" 0))] (initDB []))
                  (mkRow "b1" "T" "A" (Integer 0)) 0 3
                  Hid eq_refl eq_refl eq_refl Hk)).
Defined.
